(** * Userbot forwarder: the deduplication and delivery core

    A shallow embedding of [userbot_forwarder.py]: the sender-name filter,
    the two persisted stores (daily forward record and message tracking),
    the message handler, the delivery gateway, the retry loop and the
    process exit code, followed by the properties of the specification.

    Conventions of the embedding.
    - A Python [str] is a [string]; a character is a code point below 256.
    - Epoch times ([time.time()]) are integers.
    - A Python [dict] keyed by [str(user_id)] is a [gmap string _].
    - What the handler observes from outside (the clock, the downstream
      client, the outcome of a file write) is passed in as data.
    - The handler is a function from the state before an event to the state
      after it: one call runs to its end before the next event or cleanup is
      taken up, the single-writer discipline the specification asks for. *)

From Stdlib Require Import ZArith Ascii String List Lia.
From Stdlib Require QArith.
From stdpp Require Import base option list strings pretty gmap fin_maps.

Local Open Scope string_scope.

(** ** Text *)

Module Text.

(** [str.isspace] on code points below 256. *)
Definition isspace (c : ascii) : bool :=
  let n := nat_of_ascii c in
  (((9 <=? n) && (n <=? 13)) || ((28 <=? n) && (n <=? 32))
   || (n =? 133) || (n =? 160))%nat.

(** [\d] of the [re] module on code points below 256: the digits 0-9. *)
Definition isdigit (c : ascii) : bool :=
  let n := nat_of_ascii c in ((48 <=? n) && (n <=? 57))%nat.

Fixpoint lstrip (s : string) : string :=
  match s with
  | String c s' => if isspace c then lstrip s' else s
  | EmptyString => EmptyString
  end.

Fixpoint rstrip (s : string) : string :=
  match s with
  | String c s' =>
      match rstrip s' with
      | EmptyString => if isspace c then EmptyString else String c EmptyString
      | r => String c r
      end
  | EmptyString => EmptyString
  end.

(** [s.strip()] *)
Definition strip (s : string) : string := rstrip (lstrip s).

(** [sep.join(parts)] *)
Fixpoint join (sep : string) (parts : list string) : string :=
  match parts with
  | [] => ""
  | [p] => p
  | p :: ps => p +:+ sep +:+ join sep ps
  end.

(** Truthiness of an optional string: [None] and [''] are falsy. *)
Definition truthy (o : option string) : bool :=
  match o with
  | Some (String _ _) => true
  | _ => false
  end.

(** Number of leading digits of [s], at most [n]: the greedy repetition
    [\d{0,n}] anchored at the start of [s]. *)
Fixpoint leading_digits (n : nat) (s : string) : nat :=
  match n, s with
  | S n', String c s' => if isdigit c then S (leading_digits n' s') else 0
  | _, _ => 0
  end.

(** [\d{3,4}] anchored at the start of [s]: the length of the match. *)
Definition match_d34 (s : string) : option nat :=
  let k := leading_digits 4 s in
  if (3 <=? k)%nat then Some k else None.

(** [re.search(r'\d{3,4}', s)]: the span (start, length) of the leftmost
    match, [None] when there is none. *)
Fixpoint re_search_d34_from (i : nat) (s : string) : option (nat * nat) :=
  match match_d34 s with
  | Some k => Some (i, k)
  | None =>
      match s with
      | String _ s' => re_search_d34_from (S i) s'
      | EmptyString => None
      end
  end.

Definition re_search_d34 (s : string) : option (nat * nat) :=
  re_search_d34_from 0 s.

(** All characters of [s] are decimal digits. *)
Fixpoint all_digits (s : string) : bool :=
  match s with
  | String c s' => isdigit c && all_digits s'
  | EmptyString => true
  end.

(** The wording of the specification: [s] contains a run of three or of
    four consecutive decimal digits, as a substring. *)
Definition has_digit_run (s : string) : Prop :=
  ∃ pre run post,
    s = pre +:+ run +:+ post
    ∧ (String.length run = 3 ∨ String.length run = 4)
    ∧ all_digits run = true.

End Text.

(** ** Data model *)

(** The attributes of a sender the code reads.  An attribute that the
    object does not have ([hasattr] false) and one that is [None] are both
    [None] here: the code treats them alike. *)
Record sender := Sender {
  sender_id : Z;
  first_name : option string;
  last_name : option string;
  username : option string
}.

Record message := Message {
  text : option string;
  date : Z
}.

(** One value of [forwarded_users] in [daily_messages.json]. *)
Record daily_entry := DailyEntry {
  de_name : string;
  de_time : string
}.

(** One value of [ignored] or [collected] in [message_tracking.json].  The
    handler always writes a timestamp; a loaded file may lack one, which the
    code reads as [data.get('timestamp', 0)]. *)
Record tracking_entry := TrackingEntry {
  te_name : string;
  te_timestamp : option Z;
  te_reason : option string;
  te_time_formatted : string
}.

Definition timestamp_of (e : tracking_entry) : Z := default 0%Z (te_timestamp e).

(** [self.message_tracking] *)
Record tracking := Tracking {
  ignored : gmap string tracking_entry;
  collected : gmap string tracking_entry
}.

(** The document [daily_messages.json] holds; either key may be missing. *)
Record daily_doc := DailyDoc {
  doc_date : option string;
  doc_forwarded_users : option (gmap string daily_entry)
}.

(** What is on disk under a path: nothing, something that cannot be opened
    or parsed, or a document. *)
Inductive file (A : Type) : Type :=
| Absent
| Unreadable
| Holds (doc : A).
Arguments Absent {A}.
Arguments Unreadable {A}.
Arguments Holds {A} doc.

(** The downstream recipient, as resolved by [client.get_entity]. *)
Record entity := Entity {
  entity_id : Z;
  entity_username : string
}.

(** The state of a [UserbotForwarder] together with its two files. *)
Record forwarder := Forwarder {
  bot_entity : option entity;
  forwarded_today : gmap string daily_entry;
  message_tracking : tracking;
  daily_messages_file : file daily_doc;
  message_tracking_file : file tracking
}.

(** A reading of the system clock: [time.time()], [str(date.today())] and
    [datetime.now().strftime('%Y-%m-%d %H:%M:%S')]. *)
Record clock := Clock {
  epoch : Z;
  today : string;
  stamp : string
}.

(** How [open(path, 'w')] followed by [json.dump] ends: the document is
    written, [open] raises and the file is untouched, or [json.dump] raises
    after [open] has truncated the file. *)
Inductive write_result : Type :=
| Written
| OpenFailed
| DumpFailed.

(** What one run of the message handler observes from outside. *)
Record observation := Observation {
  check_time : Z;            (* [time.time()] in [is_message_recently_handled] *)
  resolve : option entity;   (* [client.get_entity], [None] when it raises *)
  send_ok : bool;            (* [client.send_message] returns normally *)
  record_clock : clock;      (* the clock when the outcome is recorded *)
  daily_write : write_result;
  tracking_write : write_result
}.

(** An inbound private message: [event.message], the result of
    [message.get_sender()], and what the handler observes while it runs. *)
Record event := Event {
  ev_message : message;
  ev_sender : option sender;
  ev_obs : observation
}.

(** What the delivery gateway relays: sender name, sender id, the time of
    the message and its text, in the fixed envelope of
    [forward_message_with_info]. *)
Record envelope := Envelope {
  env_sender_name : string;
  env_sender_id : Z;
  env_time : Z;
  env_text : option string
}.

(** The path the handler took. *)
Inductive outcome : Type :=
| NoSender
| SkippedRecentlyHandled
| SkippedForwardedToday
| SkippedCriteria
| Relayed (e : envelope)
| RelayFailed.

(** [str(user_id)] *)
Definition str (n : Z) : string := pretty n.

Definition with_bot_entity (b : option entity) (st : forwarder) : forwarder :=
  Forwarder b (forwarded_today st) (message_tracking st)
            (daily_messages_file st) (message_tracking_file st).

Definition with_forwarded_today (m : gmap string daily_entry) (st : forwarder)
  : forwarder :=
  Forwarder (bot_entity st) m (message_tracking st)
            (daily_messages_file st) (message_tracking_file st).

Definition with_message_tracking (t : tracking) (st : forwarder) : forwarder :=
  Forwarder (bot_entity st) (forwarded_today st) t
            (daily_messages_file st) (message_tracking_file st).

Definition with_daily_messages_file (f : file daily_doc) (st : forwarder)
  : forwarder :=
  Forwarder (bot_entity st) (forwarded_today st) (message_tracking st)
            f (message_tracking_file st).

Definition with_message_tracking_file (f : file tracking) (st : forwarder)
  : forwarder :=
  Forwarder (bot_entity st) (forwarded_today st) (message_tracking st)
            (daily_messages_file st) f.

(** The file after [open(path, 'w')] and [json.dump(doc, f)]. *)
Definition write_file {A} (w : write_result) (doc : A) (old : file A) : file A :=
  match w with
  | Written => Holds doc
  | OpenFailed => old
  | DumpFailed => Unreadable
  end.

(** ** Exceptions inside a [try] block *)

(** The value an expression evaluates to, or the fact that it raised. *)
Inductive result (A : Type) : Type :=
| Returned (a : A)
| Raised.
Arguments Returned {A} a.
Arguments Raised {A}.

#[global] Instance result_ret : MRet result := λ A a, Returned a.
#[global] Instance result_bind : MBind result := λ A B k r,
  match r with
  | Returned a => k a
  | Raised => Raised
  end.

(** [try: return body / except Exception: return fallback] *)
Definition try_except {A} (body : result A) (fallback : A) : A :=
  match body with
  | Returned a => a
  | Raised => fallback
  end.

(** [os.path.exists(path)] *)
Definition path_exists {A} (f : file A) : bool :=
  match f with
  | Absent => false
  | _ => true
  end.

(** [with open(path, 'r') as f: json.load(f)] *)
Definition json_load {A} (f : file A) : result A :=
  match f with
  | Holds doc => Returned doc
  | _ => Raised
  end.

(** ** Display name and filter *)

Definition build_sender_name (s : sender) : string :=
  let name_parts :=
    ((if Text.truthy (first_name s)
      then [Text.strip (default "" (first_name s))] else [])
     ++ (if Text.truthy (last_name s)
         then [Text.strip (default "" (last_name s))] else []))%list in
  if Text.truthy (username s) then
    let username := "@" +:+ default "" (username s) in
    match name_parts with
    | _ :: _ => Text.join " " name_parts +:+ " (" +:+ username +:+ ")"
    | [] => username
    end
  else
    match name_parts with
    | _ :: _ => Text.join " " name_parts
    | [] => "Unknown User"
    end.

(** The truth value of what [should_forward_message] returns. *)
Definition should_forward_message (m : message) (s : sender) (sender_name : string)
  : bool :=
  if negb (Text.truthy (text m)) then false
  else
    let has_digits := bool_decide (is_Some (Text.re_search_d34 sender_name)) in
    let has_full_name :=
      Text.truthy (first_name s) && Text.truthy (last_name s) in
    has_digits || has_full_name.

(** ** Loading the two files *)

Definition empty_tracking : tracking := Tracking ∅ ∅.

Definition load_daily_messages (today : string) (f : file daily_doc)
  : gmap string daily_entry :=
  try_except
    (if path_exists f then
       data ← json_load f;
       if bool_decide (doc_date data = Some today)
       then mret (default ∅ (doc_forwarded_users data))
       else mret ∅
     else mret ∅)
    ∅.

Definition load_message_tracking (f : file tracking) : tracking :=
  try_except
    (if path_exists f then
       data ← json_load f;
       mret data
     else mret empty_tracking)
    empty_tracking.

(** ** The stores, the handler and the gateway *)

Section Forwarder.

(** The module globals, after the command line has overridden them. *)
Variable DUPLICATE_CHECK_ENABLED : bool.
Variable DUPLICATE_IGNORE_DURATION : Z.

Definition save_daily_messages (self : forwarder) (today : string)
  (w : write_result) : forwarder :=
  let data := DailyDoc (Some today) (Some (forwarded_today self)) in
  with_daily_messages_file (write_file w data (daily_messages_file self)) self.

Definition save_message_tracking (self : forwarder) (w : write_result)
  : forwarder :=
  with_message_tracking_file
    (write_file w (message_tracking self) (message_tracking_file self)) self.

(** The entries of one category that [cleanup_old_tracking_data] keeps. *)
Definition cleaned (cutoff_time : Z) (m : gmap string tracking_entry)
  : gmap string tracking_entry :=
  filter (λ kv, (cutoff_time < timestamp_of kv.2)%Z) m.

Definition cleanup_old_tracking_data (self : forwarder) (current_time : Z)
  (w : write_result) : forwarder :=
  if negb DUPLICATE_CHECK_ENABLED then self
  else
    let cutoff_time := (current_time - DUPLICATE_IGNORE_DURATION)%Z in
    let cleaned_ignored := cleaned cutoff_time (ignored (message_tracking self)) in
    let cleaned_collected := cleaned cutoff_time (collected (message_tracking self)) in
    save_message_tracking
      (with_message_tracking (Tracking cleaned_ignored cleaned_collected) self) w.

Definition has_forwarded_today (self : forwarder) (user_id : Z) : bool :=
  bool_decide (is_Some (forwarded_today self !! str user_id)).

Definition mark_as_forwarded (self : forwarder) (user_id : Z)
  (sender_name : string) (now : clock) (w : write_result) : forwarder :=
  save_daily_messages
    (with_forwarded_today
       (<[str user_id := DailyEntry sender_name (stamp now)]> (forwarded_today self))
       self)
    (today now) w.

Definition track_ignored_message (self : forwarder) (user_id : Z)
  (sender_name reason : string) (now : clock) (w : write_result) : forwarder :=
  if negb DUPLICATE_CHECK_ENABLED then self
  else
    let current_time := epoch now in
    let t := message_tracking self in
    save_message_tracking
      (with_message_tracking
         (Tracking
            (<[str user_id :=
                 TrackingEntry sender_name (Some current_time) (Some reason)
                               (stamp now)]> (ignored t))
            (collected t))
         self)
      w.

Definition track_collected_message (self : forwarder) (user_id : Z)
  (sender_name : string) (now : clock) (w : write_result) : forwarder :=
  if negb DUPLICATE_CHECK_ENABLED then self
  else
    let current_time := epoch now in
    let t := message_tracking self in
    save_message_tracking
      (with_message_tracking
         (Tracking
            (ignored t)
            (<[str user_id :=
                 TrackingEntry sender_name (Some current_time) None
                               (stamp now)]> (collected t)))
         self)
      w.

(** Whether [m] has an entry under [key] whose timestamp is after the
    cutoff. *)
Definition active_in (m : gmap string tracking_entry) (key : string)
  (cutoff_time : Z) : bool :=
  match m !! key with
  | Some e => bool_decide (cutoff_time < timestamp_of e)%Z
  | None => false
  end.

Definition is_message_recently_handled (self : forwarder) (user_id : Z)
  (current_time : Z) : bool :=
  if negb DUPLICATE_CHECK_ENABLED then false
  else
    let cutoff_time := (current_time - DUPLICATE_IGNORE_DURATION)%Z in
    if active_in (ignored (message_tracking self)) (str user_id) cutoff_time
    then true
    else if active_in (collected (message_tracking self)) (str user_id) cutoff_time
    then true
    else false.

(** [forward_message_with_info]: the state afterwards and the returned
    boolean.  A stale handle is resolved once; any failure of the send
    drops the cached handle. *)
Definition forward_message_with_info (self : forwarder) (obs : observation)
  : forwarder * bool :=
  let send (st : forwarder) :=
    if send_ok obs then (st, true) else (with_bot_entity None st, false) in
  match bot_entity self with
  | Some _ => send self
  | None =>
      match resolve obs with
      | Some b => send (with_bot_entity (Some b) self)
      | None => (self, false)
      end
  end.

Definition formatted_message (m : message) (sender_name : string)
  (sender_id : Z) : envelope :=
  Envelope sender_name sender_id (date m) (text m).

Definition handle_new_message (self : forwarder) (ev : event)
  : forwarder * outcome :=
  let message := ev_message ev in
  let obs := ev_obs ev in
  match ev_sender ev with
  | None => (self, NoSender)
  | Some sender =>
      let sender_name := build_sender_name sender in
      let sender_id := sender_id sender in
      if is_message_recently_handled self sender_id (check_time obs) then
        (self, SkippedRecentlyHandled)
      else if has_forwarded_today self sender_id then
        (track_ignored_message self sender_id sender_name
           "Already forwarded today" (record_clock obs) (tracking_write obs),
         SkippedForwardedToday)
      else if negb (should_forward_message message sender sender_name) then
        (track_ignored_message self sender_id sender_name
           "Doesn't match forwarding criteria" (record_clock obs)
           (tracking_write obs),
         SkippedCriteria)
      else
        let '(self1, success) := forward_message_with_info self obs in
        if success then
          let self2 :=
            mark_as_forwarded self1 sender_id sender_name (record_clock obs)
                              (daily_write obs) in
          (track_collected_message self2 sender_id sender_name
             (record_clock obs) (tracking_write obs),
           Relayed (formatted_message message sender_name sender_id))
        else
          (track_ignored_message self1 sender_id sender_name
             "Forwarding failed" (record_clock obs) (tracking_write obs),
           RelayFailed)
  end.

(** [UserbotForwarder.__init__] over the files found on disk: both stores
    are loaded and the tracking data is pruned once. *)
Definition init (daily : file daily_doc) (tracked : file tracking)
  (now : clock) (w : write_result) : forwarder :=
  cleanup_old_tracking_data
    (Forwarder None (load_daily_messages (today now) daily)
               (load_message_tracking tracked) daily tracked)
    (epoch now) w.

End Forwarder.

(** ** The retry loop and the exit code *)

Module Supervisor.

Definition max_retries : nat := 5.
Definition retry_delay : Z := 30.

(** How the [try] body of one iteration of [run_with_retry] ends. *)
Inductive body_result : Type :=
| SetupReturnedFalse        (* [setup_client] returned [False] *)
| WaitReturned              (* [asyncio.wait] returned: disconnect or shutdown *)
| KeyboardInterruptRaised
| ExceptionBeforeReset      (* raised before [self.retry_count = 0] *)
| ExceptionAfterReset.      (* raised after [self.retry_count = 0] *)

(** One iteration as seen from outside: how the body ends, whether the
    shutdown signal arrived while it ran, and whether it arrived during the
    retry delay ([wait_for] returns instead of timing out). *)
Record attempt := Attempt {
  body : body_result;
  signal_during_body : bool;
  signal_during_delay : bool
}.

(** Why [run_with_retry] returned. *)
Inductive stop : Type :=
| LoopConditionFalse
| FailedToSetup
| ShutdownRequested
| Interrupted
| ShutdownDuringDelay
| GaveUp.

(** The [except Exception] branch with the counter already incremented. *)
Definition after_exception (retry_count : nat) (shutdown : bool)
  (a : attempt) (continue : nat → bool → option stop) : option stop :=
  if (retry_count <? max_retries)%nat && negb shutdown then
    if signal_during_delay a then Some ShutdownDuringDelay
    else continue retry_count shutdown
  else Some GaveUp.

(** [run_with_retry], from the counter and the shutdown flag at entry, over
    the iterations the environment provides.  [None]: the loop is still
    running when the provided iterations end.  The [finally] block only
    disconnects the client and swallows any error, so it does not show. *)
Fixpoint run_with_retry (attempts : list attempt) (retry_count : nat)
  (shutdown : bool) : option stop :=
  if negb ((retry_count <? max_retries)%nat && negb shutdown)
  then Some LoopConditionFalse
  else
    match attempts with
    | [] => None
    | a :: rest =>
        let shutdown' := shutdown || signal_during_body a in
        match body a with
        | SetupReturnedFalse => Some FailedToSetup
        | WaitReturned =>
            if shutdown' then Some ShutdownRequested
            else run_with_retry rest 0%nat shutdown'
        | KeyboardInterruptRaised => Some Interrupted
        | ExceptionBeforeReset =>
            after_exception (S retry_count) shutdown' a (run_with_retry rest)
        | ExceptionAfterReset =>
            after_exception 1%nat shutdown' a (run_with_retry rest)
        end
    end.

(** The command line, as [parse_arguments] returns it. *)
Record arguments := Arguments_ {
  stats : bool;
  ignore_duration : option Z;
  enable_tracking : bool;
  disable_tracking : bool
}.

(** The values read from the configuration file. *)
Record settings := Settings {
  API_ID : Z;
  API_HASH : string;
  BOT_USERNAME : string;
  DUPLICATE_IGNORE_DURATION : Z;
  DUPLICATE_CHECK_ENABLED : bool
}.

(** The two globals after the overrides at the top of [main]. *)
Definition effective_ignore_duration (args : arguments) (cfg : settings) : Z :=
  default (DUPLICATE_IGNORE_DURATION cfg) (ignore_duration args).

Definition effective_check_enabled (args : arguments) (cfg : settings) : bool :=
  if enable_tracking args then true
  else if disable_tracking args then false
  else DUPLICATE_CHECK_ENABLED cfg.

(** The value [main] returns; [None] while the retry loop is running. *)
Definition main (cfg : settings) (shutdown : bool) (attempts : list attempt)
  : option Z :=
  if (API_ID cfg =? 0)%Z || negb (Text.truthy (Some (API_HASH cfg))) then Some 1%Z
  else if negb (Text.truthy (Some (BOT_USERNAME cfg))) then Some 1%Z
  else
    match run_with_retry attempts 0 shutdown with
    | Some _ => Some 0%Z
    | None => None
    end.

(** The exit code of the process: [--stats] prints and falls off the end of
    the script, anything else is [sys.exit(main())]. *)
Definition exit_code (args : arguments) (cfg : settings) (shutdown : bool)
  (attempts : list attempt) : option Z :=
  if stats args then Some 0%Z
  else main cfg shutdown attempts.

End Supervisor.

(** ** In-process runs *)

(** What happens to a running forwarder: the event handler is called, or
    the periodic task calls [cleanup_old_tracking_data]. *)
Inductive step : Type :=
| Incoming (ev : event)
| Cleanup (current_time : Z) (w : write_result).

(** The state after the steps, and the handled events with their outcomes
    in order of arrival. *)
Fixpoint run (enabled : bool) (duration : Z) (self : forwarder)
  (steps : list step) : forwarder * list (event * outcome) :=
  match steps with
  | [] => (self, [])
  | Incoming ev :: rest =>
      let '(self1, o) := handle_new_message enabled duration self ev in
      let '(self2, log) := run enabled duration self1 rest in
      (self2, (ev, o) :: log)
  | Cleanup current_time w :: rest =>
      run enabled duration
          (cleanup_old_tracking_data enabled duration self current_time w) rest
  end.

(** The handler reached the delivery gateway. *)
Definition attempted (o : outcome) : bool :=
  match o with
  | Relayed _ | RelayFailed => true
  | _ => false
  end.

Definition is_relayed (o : outcome) : bool :=
  match o with
  | Relayed _ => true
  | _ => false
  end.

(** The event comes from the sender with identifier [user_id]. *)
Definition from_sender (user_id : Z) (ev : event) : bool :=
  match ev_sender ev with
  | Some s => bool_decide (sender_id s = user_id)
  | None => false
  end.

(** The calendar date on which the handler recorded the outcome. *)
Definition date_of (ev : event) : string := today (record_clock (ev_obs ev)).


(** The optional text is present and not empty. *)
Definition nonempty (o : option string) : Prop :=
  ∃ s, o = Some s ∧ s ≠ "".

(** The six paths through [handle_new_message], as a relation between the
    state before, the event, the state after and the outcome. *)
Inductive handled (enabled : bool) (window : Z) (self : forwarder) (ev : event)
  : forwarder → outcome → Prop :=
| handled_no_sender :
    ev_sender ev = None →
    handled enabled window self ev self NoSender
| handled_recent s :
    ev_sender ev = Some s →
    is_message_recently_handled enabled window self (sender_id s)
      (check_time (ev_obs ev)) = true →
    handled enabled window self ev self SkippedRecentlyHandled
| handled_forwarded_today s :
    ev_sender ev = Some s →
    is_message_recently_handled enabled window self (sender_id s)
      (check_time (ev_obs ev)) = false →
    has_forwarded_today self (sender_id s) = true →
    handled enabled window self ev
      (track_ignored_message enabled self (sender_id s) (build_sender_name s)
         "Already forwarded today" (record_clock (ev_obs ev))
         (tracking_write (ev_obs ev)))
      SkippedForwardedToday
| handled_criteria s :
    ev_sender ev = Some s →
    is_message_recently_handled enabled window self (sender_id s)
      (check_time (ev_obs ev)) = false →
    has_forwarded_today self (sender_id s) = false →
    should_forward_message (ev_message ev) s (build_sender_name s) = false →
    handled enabled window self ev
      (track_ignored_message enabled self (sender_id s) (build_sender_name s)
         "Doesn't match forwarding criteria" (record_clock (ev_obs ev))
         (tracking_write (ev_obs ev)))
      SkippedCriteria
| handled_relayed s self1 :
    ev_sender ev = Some s →
    is_message_recently_handled enabled window self (sender_id s)
      (check_time (ev_obs ev)) = false →
    has_forwarded_today self (sender_id s) = false →
    should_forward_message (ev_message ev) s (build_sender_name s) = true →
    forward_message_with_info self (ev_obs ev) = (self1, true) →
    handled enabled window self ev
      (track_collected_message enabled
         (mark_as_forwarded self1 (sender_id s) (build_sender_name s)
            (record_clock (ev_obs ev)) (daily_write (ev_obs ev)))
         (sender_id s) (build_sender_name s) (record_clock (ev_obs ev))
         (tracking_write (ev_obs ev)))
      (Relayed (formatted_message (ev_message ev) (build_sender_name s)
                                  (sender_id s)))
| handled_relay_failed s self1 :
    ev_sender ev = Some s →
    is_message_recently_handled enabled window self (sender_id s)
      (check_time (ev_obs ev)) = false →
    has_forwarded_today self (sender_id s) = false →
    should_forward_message (ev_message ev) s (build_sender_name s) = true →
    forward_message_with_info self (ev_obs ev) = (self1, false) →
    handled enabled window self ev
      (track_ignored_message enabled self1 (sender_id s) (build_sender_name s)
         "Forwarding failed" (record_clock (ev_obs ev))
         (tracking_write (ev_obs ev)))
      RelayFailed.






(** A restart of the process: a new [UserbotForwarder] is built over the
    files the old one left behind. *)
Definition restart (enabled : bool) (duration : Z) (self : forwarder)
  (now : clock) (w : write_result) : forwarder :=
  init enabled duration (daily_messages_file self) (message_tracking_file self)
       now w.







(** The handler with its tracking calls left out: only the forwarded-today
    check and the filter decide, and the tracking store is neither read nor
    written. *)
Definition handle_untracked (self : forwarder) (ev : event)
  : forwarder * outcome :=
  match ev_sender ev with
  | None => (self, NoSender)
  | Some s =>
      let name := build_sender_name s in
      if has_forwarded_today self (sender_id s) then (self, SkippedForwardedToday)
      else if negb (should_forward_message (ev_message ev) s name)
      then (self, SkippedCriteria)
      else
        let '(self1, success) := forward_message_with_info self (ev_obs ev) in
        if success then
          (mark_as_forwarded self1 (sender_id s) name
             (record_clock (ev_obs ev)) (daily_write (ev_obs ev)),
           Relayed (formatted_message (ev_message ev) name (sender_id s)))
        else (self1, RelayFailed)
  end.

(** ** Example inputs *)

(** Senders used as examples: a handle with a two-digit run, one with a
    five-digit run, neither with a first or last name. *)
Definition driver22 : sender := Sender 501 None None (Some "driver22").
Definition driver22345 : sender := Sender 502 None None (Some "driver22345").
Definition hi : message := Message (Some "hi") 0.

(** A sender with first and last name, the downstream bot, and a forwarder
    that has just been started on an empty disk. *)
Definition john : sender := Sender 7 (Some "John") (Some "Doe") None.
Definition bot : entity := Entity 1 "AfterhoursFWL_Bot".
Definition just_started : forwarder := Forwarder (Some bot) ∅ empty_tracking Absent Absent.

(** The clock at [t] seconds on the day called [d]. *)
Definition at_time (t : Z) (d : string) : clock := Clock t d (d +:+ " " +:+ pretty t).

(** A message "hi" from [s] handled at time [t] on day [d]; the send
    succeeds or fails as [ok] says, and every file write succeeds. *)
Definition hi_from (s : sender) (t : Z) (d : string) (ok : bool) : event :=
  Event hi (Some s) (Observation t (Some bot) ok (at_time t d) Written Written).

(** Two messages from John a second apart, the first send failing. *)
Definition fail_then_retry : list step :=
  [Incoming (hi_from john 0 "2024-05-01" false);
   Incoming (hi_from john 1 "2024-05-01" true)].

(** The outcomes of the handled events, in order. *)
Definition outcomes (r : forwarder * list (event * outcome)) : list outcome :=
  map snd r.2.

Definition john_envelope (t : Z) : envelope := Envelope "John Doe" 7 t (Some "hi").

(** A forwarder that relayed John's message late on 1 May and is still
    running after midnight, and the clock a minute into 2 May. *)
Definition late_entry : daily_entry := DailyEntry "John Doe" "2024-05-01 23:50:00".
Definition ran_overnight : forwarder :=
  Forwarder (Some bot) {[ "7" := late_entry ]} empty_tracking
            (Holds (DailyDoc (Some "2024-05-01") (Some {[ "7" := late_entry ]})))
            Absent.
Definition next_morning : clock := Clock 86460 "2024-05-02" "2024-05-02 00:01:00".

(** The default command line and configuration, a first iteration in which
    [setup_client] fails, and five iterations that raise before the counter
    is reset. *)
Definition no_arguments : Supervisor.arguments :=
  Supervisor.Arguments_ false None false false.
Definition defaults : Supervisor.settings :=
  Supervisor.Settings 27567587 "dd20d2e57837adccf9da7d7ee49c13d6"
                      "AfterhoursFWL_Bot" 3600 true.
Definition setup_fails : list Supervisor.attempt :=
  [Supervisor.Attempt Supervisor.SetupReturnedFalse false false].
Definition five_failures : list Supervisor.attempt :=
  replicate 5 (Supervisor.Attempt Supervisor.ExceptionBeforeReset false false).

(** ** Statistics *)

(** What [get_tracking_stats] returns: the one-key dictionary when tracking
    is disabled, the full one otherwise.  The hours are the exact quotient
    of the duration by 3600. *)
Inductive tracking_stats : Type :=
| StatsDisabled
| Stats (ignore_duration_seconds : Z)
        (ignore_duration_hours : QArith_base.Q)
        (recent_ignored recent_collected : nat)
        (total_ignored total_collected : nat)
        (last_cleanup : string).

(** [sum(1 for data in m.values() if data.get('timestamp', 0) > cutoff)] *)
Definition count_recent (cutoff_time : Z) (m : gmap string tracking_entry) : nat :=
  length (filter (λ e, (cutoff_time < timestamp_of e)%Z) (map_to_list m).*2).

Definition get_tracking_stats (enabled : bool) (duration : Z)
  (self : forwarder) (now : clock) : tracking_stats :=
  if negb enabled then StatsDisabled
  else
    let cutoff_time := (epoch now - duration)%Z in
    Stats duration
          (QArith_base.Qmake duration 3600)
          (count_recent cutoff_time (ignored (message_tracking self)))
          (count_recent cutoff_time (collected (message_tracking self)))
          (size (ignored (message_tracking self)))
          (size (collected (message_tracking self)))
          (stamp now).

(** ** Memory and disk *)

(** The tracking file holds the tracking store as it is in memory. *)
Definition tracking_synced (self : forwarder) : Prop :=
  message_tracking_file self = Holds (message_tracking self).

(** The daily file holds the daily record as it is in memory, under the
    date [d]. *)
Definition daily_synced (d : string) (self : forwarder) : Prop :=
  daily_messages_file self
  = Holds (DailyDoc (Some d) (Some (forwarded_today self))).

(** Every file write of the step succeeds. *)
Definition all_written (st : step) : Prop :=
  match st with
  | Incoming ev =>
      daily_write (ev_obs ev) = Written ∧ tracking_write (ev_obs ev) = Written
  | Cleanup _ w => w = Written
  end.

(** The successful relays in a log. *)
Definition relays (log : list (event * outcome)) : nat :=
  length (List.filter (λ x, is_relayed x.2) log).

(** An iteration of the retry loop during which no shutdown signal
    arrives. *)
Definition undisturbed (b : Supervisor.body_result) : Supervisor.attempt :=
  Supervisor.Attempt b false false.

(** * Properties *)

(** ** The filter *)

Module TextFacts.
Import Text.

Lemma leading_three (s : string) :
  (3 ≤ leading_digits 4 s)%nat →
  ∃ a b c rest,
    s = String a (String b (String c rest))
    ∧ isdigit a = true ∧ isdigit b = true ∧ isdigit c = true.
Proof.
  destruct s as [|a [|b [|c rest]]]; simpl; try lia;
    destruct (isdigit a) eqn:Ha; simpl; try lia;
    destruct (isdigit b) eqn:Hb; simpl; try lia;
    destruct (isdigit c) eqn:Hc; simpl; try lia.
  intros _. by exists a, b, c, rest.
Qed.

Lemma leading_of_run (run post : string) :
  (3 ≤ String.length run)%nat → all_digits run = true →
  (3 ≤ leading_digits 4 (run +:+ post))%nat.
Proof.
  destruct run as [|a [|b [|c rest]]]; simpl; try lia.
  intros _ H.
  destruct (isdigit a), (isdigit b), (isdigit c); simpl in *; try discriminate.
  lia.
Qed.

Lemma match_d34_Some (s : string) :
  is_Some (match_d34 s) ↔ (3 ≤ leading_digits 4 s)%nat.
Proof.
  unfold match_d34. destruct (Nat.leb_spec 3 (leading_digits 4 s)).
  - split; [done | by eexists].
  - split; [intros [? ?]; discriminate | lia].
Qed.

Lemma search_unfold (s : string) (i : nat) :
  re_search_d34_from i s =
  match match_d34 s with
  | Some k => Some (i, k)
  | None =>
      match s with
      | String _ s' => re_search_d34_from (S i) s'
      | EmptyString => None
      end
  end.
Proof. by destruct s. Qed.

Lemma search_finds (s : string) (i : nat) :
  is_Some (re_search_d34_from i s) → has_digit_run s.
Proof.
  revert i. induction s as [|c s IH]; intros i; simpl.
  - unfold match_d34; simpl. intros [? ?]; discriminate.
  - destruct (match_d34 (String c s)) as [k|] eqn:Hm.
    + intros _.
      destruct (leading_three (String c s)) as (a & b & d & rest & -> & Ha & Hb & Hd).
      { apply match_d34_Some. by rewrite Hm. }
      exists "", (String a (String b (String d ""))), rest. simpl.
      rewrite Ha, Hb, Hd. auto.
    + intros H. destruct (IH _ H) as (pre & r & post & -> & Hlen & Hr).
      by exists (String c pre), r, post.
Qed.

Lemma search_complete (pre run post : string) (i : nat) :
  (3 ≤ String.length run)%nat → all_digits run = true →
  is_Some (re_search_d34_from i (pre +:+ run +:+ post)).
Proof.
  intros Hlen Hr. revert i. induction pre as [|c pre IH]; intros i.
  - pose proof (leading_of_run run post Hlen Hr) as H.
    apply match_d34_Some in H as [k Hk].
    change ("" +:+ run +:+ post) with (run +:+ post).
    rewrite search_unfold, Hk. by eexists.
  - change (String c pre +:+ run +:+ post)
      with (String c (pre +:+ run +:+ post)).
    rewrite search_unfold.
    destruct (match_d34 _); [by eexists | apply IH].
Qed.

(** [re.search(r'\d{3,4}', s)] finds a match exactly when [s] contains a run
    of three or four digits. *)
Lemma re_search_d34_spec (s : string) :
  is_Some (re_search_d34 s) ↔ has_digit_run s.
Proof.
  split.
  - apply search_finds.
  - intros (pre & r & post & -> & Hlen & Hr).
    apply search_complete; [lia | done].
Qed.

(** A longer run contains a run of three, so it is matched as well. *)
Lemma longer_run_matches (pre run post : string) :
  (3 ≤ String.length run)%nat → all_digits run = true →
  is_Some (re_search_d34 (pre +:+ run +:+ post)).
Proof. apply search_complete. Qed.

End TextFacts.

Lemma truthy_nonempty (o : option string) :
  Text.truthy o = true ↔ nonempty o.
Proof.
  unfold nonempty. destruct o as [[|c s]|]; simpl.
  - split; [discriminate | intros (s' & [= <-] & Hs); done].
  - split; [intros _; by eexists | done].
  - split; [discriminate | intros (s' & [=] & _)].
Qed.

(** C4.  The filter accepts exactly when the message text is non-empty and
    either the display name contains a run of three or four decimal digits
    (as a substring) or the sender has both a non-empty first name and a
    non-empty last name.  Hence a name without such a run is rejected when
    the last name is missing, any run of at least three digits (five, say)
    is accepted, and so are the two example senders. *)
Theorem should_forward_message_criteria :
  (∀ (m : message) (s : sender) (sender_name : string),
     should_forward_message m s sender_name = true ↔
     nonempty (text m)
     ∧ (Text.has_digit_run sender_name
        ∨ (nonempty (first_name s) ∧ nonempty (last_name s))))
  ∧ (∀ (m : message) (s : sender) (sender_name : string),
       ¬ Text.has_digit_run sender_name → ¬ nonempty (last_name s) →
       should_forward_message m s sender_name = false)
  ∧ (∀ (m : message) (s : sender) (pre run post : string),
       nonempty (text m) → String.length run = 5%nat →
       Text.all_digits run = true →
       should_forward_message m s (pre +:+ run +:+ post) = true)
  ∧ build_sender_name driver22 = "@driver22"
  ∧ should_forward_message hi driver22 (build_sender_name driver22) = false
  ∧ build_sender_name driver22345 = "@driver22345"
  ∧ should_forward_message hi driver22345 (build_sender_name driver22345) = true.
Proof.
  assert (Hiff : ∀ m s sender_name,
     should_forward_message m s sender_name = true ↔
     nonempty (text m)
     ∧ (Text.has_digit_run sender_name
        ∨ (nonempty (first_name s) ∧ nonempty (last_name s)))).
  { intros m s sender_name. unfold should_forward_message.
    rewrite <- !truthy_nonempty, <- TextFacts.re_search_d34_spec.
    destruct (Text.truthy (text m)); simpl.
    - rewrite orb_true_iff, andb_true_iff, bool_decide_eq_true. tauto.
    - split; [discriminate | intros [? _]; discriminate]. }
  split; [exact Hiff |]. split; [| split].
  - intros m s sender_name Hrun Hlast.
    apply not_true_is_false. rewrite Hiff. tauto.
  - intros m s pre r post Htext Hlen Hr. apply Hiff. split; [done |].
    left. apply TextFacts.re_search_d34_spec, TextFacts.longer_run_matches;
      [lia | done].
  - by vm_compute.
Qed.

(** ** Loading and saving *)

(** C9.  Loading never raises: [load_message_tracking] returns the stored
    document when the file exists and parses and the empty store otherwise;
    [load_daily_messages] returns no forwarded senders when the file is
    missing or unreadable (or is from another day) and the stored ones when
    the file is of today.  A save changes nothing but the file, whatever the
    write does, so a failed write leaves the state in memory as it was. *)
Theorem load_falls_back_and_save_is_contained :
  (∀ f : file tracking,
     load_message_tracking f =
     match f with
     | Holds doc => doc
     | Absent | Unreadable => Tracking ∅ ∅
     end)
  ∧ (∀ (today : string) (f : file daily_doc),
       load_daily_messages today f =
       match f with
       | Holds doc =>
           if bool_decide (doc_date doc = Some today)
           then default ∅ (doc_forwarded_users doc) else ∅
       | Absent | Unreadable => ∅
       end)
  ∧ (∀ (today : string) (users : gmap string daily_entry),
       load_daily_messages today (Holds (DailyDoc (Some today) (Some users)))
       = users)
  ∧ (∀ (self : forwarder) (w : write_result),
       let self' := save_message_tracking self w in
       message_tracking self' = message_tracking self
       ∧ forwarded_today self' = forwarded_today self
       ∧ bot_entity self' = bot_entity self
       ∧ daily_messages_file self' = daily_messages_file self
       ∧ (w = OpenFailed → self' = self)
       ∧ (w = DumpFailed → message_tracking_file self' = Unreadable))
  ∧ (∀ (self : forwarder) (today : string) (w : write_result),
       let self' := save_daily_messages self today w in
       message_tracking self' = message_tracking self
       ∧ forwarded_today self' = forwarded_today self
       ∧ bot_entity self' = bot_entity self
       ∧ message_tracking_file self' = message_tracking_file self
       ∧ (w = OpenFailed → self' = self)
       ∧ (w = DumpFailed → daily_messages_file self' = Unreadable)).
Proof.
  split; [by intros [| |doc] |].
  split.
  { intros today [| |doc]; try done.
    unfold load_daily_messages; cbn. by case_bool_decide. }
  split.
  { intros today users. unfold load_daily_messages; cbn.
    by rewrite bool_decide_eq_true_2. }
  split.
  - intros self w; cbn. repeat split; try done.
    + intros ->. by destruct self.
    + by intros ->.
  - intros self d w; cbn. repeat split; try done.
    + intros ->. by destruct self.
    + by intros ->.
Qed.

(** ** Pruning *)

Lemma cleaned_lookup_Some (cutoff : Z) (m : gmap string tracking_entry)
  (k : string) (e : tracking_entry) :
  cleaned cutoff m !! k = Some e ↔ m !! k = Some e ∧ (cutoff < timestamp_of e)%Z.
Proof. unfold cleaned. by rewrite map_lookup_filter_Some. Qed.

Lemma cleaned_lookup_None (cutoff : Z) (m : gmap string tracking_entry)
  (k : string) (e : tracking_entry) :
  m !! k = Some e → (timestamp_of e ≤ cutoff)%Z → cleaned cutoff m !! k = None.
Proof.
  intros Hk Hle. destruct (cleaned cutoff m !! k) as [e'|] eqn:He'; [|done].
  apply cleaned_lookup_Some in He' as [He' Hlt].
  rewrite Hk in He'. injection He' as <-. lia.
Qed.

Lemma cleaned_keeps (now window : Z) (m : gmap string tracking_entry)
  (k : string) (e : tracking_entry) :
  cleaned (now - window) m !! k = Some e ↔
  m !! k = Some e ∧ ¬ (now - timestamp_of e >= window)%Z.
Proof.
  rewrite cleaned_lookup_Some. split; intros [? ?]; split; (done || lia).
Qed.

Lemma cleanup_enabled (duration : Z) (self : forwarder) (now : Z)
  (w : write_result) :
  cleanup_old_tracking_data true duration self now w =
  let t := Tracking (cleaned (now - duration) (ignored (message_tracking self)))
                    (cleaned (now - duration) (collected (message_tracking self))) in
  Forwarder (bot_entity self) (forwarded_today self) t
            (daily_messages_file self)
            (write_file w t (message_tracking_file self)).
Proof. reflexivity. Qed.

(** C7.  With tracking enabled, [cleanup_old_tracking_data] keeps in both
    categories exactly the entries with [now - timestamp < window], removes
    exactly those with [now - timestamp >= window] (an entry aged exactly
    the window goes, one a second younger stays), leaves the rest of the
    state alone and then writes the pruned store to its file. *)
Theorem cleanup_old_tracking_data_exact (window : Z) (self : forwarder)
  (now : Z) (w : write_result) :
  let self' := cleanup_old_tracking_data true window self now w in
  let before := message_tracking self in
  let after := message_tracking self' in
  (∀ category : tracking → gmap string tracking_entry,
     category = ignored ∨ category = collected →
     (∀ k e, category after !! k = Some e ↔
             category before !! k = Some e ∧ ¬ (now - timestamp_of e >= window)%Z)
     ∧ (∀ k e, category before !! k = Some e →
               (now - timestamp_of e >= window)%Z → category after !! k = None)
     ∧ (∀ k e, category before !! k = Some e →
               (now - timestamp_of e = window)%Z → category after !! k = None)
     ∧ (∀ k e, category before !! k = Some e →
               (now - timestamp_of e = window - 1)%Z →
               category after !! k = Some e))
  ∧ forwarded_today self' = forwarded_today self
  ∧ bot_entity self' = bot_entity self
  ∧ daily_messages_file self' = daily_messages_file self
  ∧ message_tracking_file self' = write_file w after (message_tracking_file self)
  ∧ (w = Written → message_tracking_file self' = Holds after).
Proof.
  intros self' before after. subst self' before after.
  rewrite cleanup_enabled. cbn.
  split; [| repeat split; by intros ->].
  intros category [-> | ->]; cbn.
  all: split; [intros k e; apply cleaned_keeps |].
  all: split; [| split].
  all: intros k e Hk Hage.
  all: try (eapply cleaned_lookup_None; [exact Hk | lia]).
  all: apply cleaned_keeps; split; [done | lia].
Qed.

(** ** The handler, path by path *)

Lemma handle_new_message_handled (enabled : bool) (window : Z)
  (self : forwarder) (ev : event) :
  handled enabled window self ev
          (handle_new_message enabled window self ev).1
          (handle_new_message enabled window self ev).2.
Proof.
  unfold handle_new_message.
  destruct (ev_sender ev) as [s|] eqn:Hs; [| by constructor].
  destruct (is_message_recently_handled _ _ _ _ _) eqn:Hrecent;
    [by econstructor |].
  destruct (has_forwarded_today _ _) eqn:Hfwd; [by econstructor |].
  destruct (should_forward_message _ _ _) eqn:Hpass;
    [| by eapply handled_criteria].
  cbn. destruct (forward_message_with_info self (ev_obs ev)) as [self1 [|]] eqn:Hsend.
  - by eapply handled_relayed.
  - by eapply handled_relay_failed.
Qed.

Lemma forward_message_with_info_stores (self self1 : forwarder)
  (obs : observation) (ok : bool) :
  forward_message_with_info self obs = (self1, ok) →
  forwarded_today self1 = forwarded_today self
  ∧ message_tracking self1 = message_tracking self
  ∧ daily_messages_file self1 = daily_messages_file self
  ∧ message_tracking_file self1 = message_tracking_file self.
Proof.
  unfold forward_message_with_info.
  destruct (bot_entity self), (resolve obs), (send_ok obs);
    intros [= <- <-]; done.
Qed.

Lemma track_ignored_forwarded_today (enabled : bool) (self : forwarder)
  (id : Z) (name reason : string) (now : clock) (w : write_result) :
  forwarded_today (track_ignored_message enabled self id name reason now w)
  = forwarded_today self.
Proof. by destruct enabled. Qed.

Lemma track_collected_forwarded_today (enabled : bool) (self : forwarder)
  (id : Z) (name : string) (now : clock) (w : write_result) :
  forwarded_today (track_collected_message enabled self id name now w)
  = forwarded_today self.
Proof. by destruct enabled. Qed.

Lemma cleanup_forwarded_today (enabled : bool) (window : Z) (self : forwarder)
  (now : Z) (w : write_result) :
  forwarded_today (cleanup_old_tracking_data enabled window self now w)
  = forwarded_today self.
Proof. by destruct enabled. Qed.

(** The daily record changes on a successful relay and only then. *)
Lemma handled_daily_record (enabled : bool) (window : Z)
  (self self' : forwarder) (ev : event) (o : outcome) :
  handled enabled window self ev self' o →
  match o with
  | Relayed _ =>
      ∃ s, ev_sender ev = Some s
           ∧ has_forwarded_today self (sender_id s) = false
           ∧ forwarded_today self'
             = <[str (sender_id s) :=
                   DailyEntry (build_sender_name s)
                              (stamp (record_clock (ev_obs ev)))]>
                 (forwarded_today self)
  | _ => forwarded_today self' = forwarded_today self
  end.
Proof.
  destruct 1 as [| | | |s self1 Hs Hrecent Hfwd Hpass Hsend
                 |s self1 Hs Hrecent Hfwd Hpass Hsend];
    rewrite ?track_ignored_forwarded_today; try done.
  - exists s. split; [done|]. split; [done|].
    rewrite track_collected_forwarded_today. cbn.
    apply forward_message_with_info_stores in Hsend as (-> & _). done.
  - by apply forward_message_with_info_stores in Hsend as (-> & _).
Qed.


Lemma from_sender_Some (id : Z) (ev : event) (s : sender) :
  ev_sender ev = Some s →
  from_sender id ev = bool_decide (sender_id s = id).
Proof. unfold from_sender. by intros ->. Qed.


(** ** The decision order *)

Lemma track_ignored_lookup (self : forwarder) (user_id : Z)
  (sender_name reason : string) (now : clock) (w : write_result) :
  ignored (message_tracking
             (track_ignored_message true self user_id sender_name reason now w))
    !! str user_id
  = Some (TrackingEntry sender_name (Some (epoch now)) (Some reason) (stamp now)).
Proof. cbn. apply lookup_insert_eq. Qed.

Lemma track_collected_lookup (self : forwarder) (user_id : Z)
  (sender_name : string) (now : clock) (w : write_result) :
  collected (message_tracking
               (track_collected_message true self user_id sender_name now w))
    !! str user_id
  = Some (TrackingEntry sender_name (Some (epoch now)) None (stamp now)).
Proof. cbn. apply lookup_insert_eq. Qed.

(** C3.  For a message whose sender is known the handler decides in this
    order, the first match winning: recently handled, skip and leave the
    whole state as it is; forwarded today, skip and record the sender as
    ignored; filter fails, skip and record the sender as ignored; otherwise
    the message goes to the delivery gateway.  Recording as ignored is a
    call of [track_ignored_message], which with tracking enabled stores the
    entry under the sender's key. *)
Theorem handle_new_message_decision_order (enabled : bool) (window : Z)
  (self : forwarder) (ev : event) (s : sender) :
  ev_sender ev = Some s →
  let name := build_sender_name s in
  let id := sender_id s in
  let obs := ev_obs ev in
  let recent := is_message_recently_handled enabled window self id (check_time obs) in
  let forwarded := has_forwarded_today self id in
  let passes := should_forward_message (ev_message ev) s name in
  let ignore reason :=
    track_ignored_message enabled self id name reason (record_clock obs)
                          (tracking_write obs) in
  let result := handle_new_message enabled window self ev in
  (recent = true → result = (self, SkippedRecentlyHandled))
  ∧ (recent = false → forwarded = true →
     result = (ignore "Already forwarded today", SkippedForwardedToday))
  ∧ (recent = false → forwarded = false → passes = false →
     result = (ignore "Doesn't match forwarding criteria", SkippedCriteria))
  ∧ (recent = false → forwarded = false → passes = true →
     attempted result.2 = true)
  ∧ (enabled = true → ∀ reason,
       ignored (message_tracking (ignore reason)) !! str id
       = Some (TrackingEntry name (Some (epoch (record_clock obs)))
                             (Some reason) (stamp (record_clock obs)))).
Proof.
  intros Hs name id obs recent forwarded passes ignore result.
  subst result. unfold handle_new_message. rewrite Hs.
  fold name id obs. fold recent forwarded passes.
  repeat split.
  - by intros ->.
  - by intros -> ->.
  - by intros -> -> ->.
  - intros -> -> ->. cbn.
    destruct (forward_message_with_info self obs) as [self1 [|]]; done.
  - intros -> reason. apply track_ignored_lookup.
Qed.

Lemma handle_new_message_decision_order_witness :
  handle_new_message true 3600 just_started (hi_from john 0 "2024-05-01" true)
  = (track_collected_message true
       (mark_as_forwarded just_started 7 "John Doe" (at_time 0 "2024-05-01") Written)
       7 "John Doe" (at_time 0 "2024-05-01") Written,
     Relayed (john_envelope 0))
  ∧ attempted
      (handle_new_message true 3600 just_started
         (hi_from john 0 "2024-05-01" true)).2 = true.
Proof.
  split; [reflexivity |].
  exact (proj1 (proj2 (proj2 (proj2
           (handle_new_message_decision_order true 3600 just_started
              (hi_from john 0 "2024-05-01" true) john eq_refl))))
         eq_refl eq_refl eq_refl).
Defined.

(** ** Tracking disabled *)

Lemma handle_untracked_eq (window : Z) (self : forwarder) (ev : event) :
  handle_new_message false window self ev = handle_untracked self ev.
Proof.
  unfold handle_new_message, handle_untracked.
  destruct (ev_sender ev) as [s|]; [|done]. cbn.
  destruct (has_forwarded_today self (sender_id s)); [done|].
  destruct (should_forward_message _ _ _); [|done]. cbn.
  by destruct (forward_message_with_info self (ev_obs ev)) as [self1 [|]].
Qed.

Lemma handle_untracked_tracking (self : forwarder) (ev : event) :
  message_tracking (handle_untracked self ev).1 = message_tracking self
  ∧ message_tracking_file (handle_untracked self ev).1 = message_tracking_file self.
Proof.
  unfold handle_untracked.
  destruct (ev_sender ev) as [s|]; [|done].
  destruct (has_forwarded_today self (sender_id s)); [done|].
  destruct (negb _); [done|].
  unfold forward_message_with_info.
  destruct (bot_entity self), (resolve (ev_obs ev)), (send_ok (ev_obs ev)); done.
Qed.

(** C10.  With tracking disabled the recently-handled query is always
    false; recording an ignored entry, recording a collected entry and
    pruning return the state they were given; the handler decides by the
    forwarded-today check and the filter alone and leaves the tracking store
    and its file untouched.  A second message a second after a failed send
    then reaches the gateway again (with tracking enabled it is skipped),
    and a sender relayed just before midnight is relayed again just after
    it when the process restarts in between. *)
Theorem tracking_disabled_is_inert :
  (∀ window self id now,
     is_message_recently_handled false window self id now = false)
  ∧ (∀ self id name reason now w,
       track_ignored_message false self id name reason now w = self)
  ∧ (∀ self id name now w,
       track_collected_message false self id name now w = self)
  ∧ (∀ window self now w,
       cleanup_old_tracking_data false window self now w = self)
  ∧ (∀ window self ev,
       handle_new_message false window self ev = handle_untracked self ev
       ∧ message_tracking (handle_new_message false window self ev).1
         = message_tracking self
       ∧ message_tracking_file (handle_new_message false window self ev).1
         = message_tracking_file self)
  ∧ outcomes (run false 3600 just_started fail_then_retry)
    = [RelayFailed; Relayed (john_envelope 0)]
  ∧ outcomes (run true 3600 just_started fail_then_retry)
    = [RelayFailed; SkippedRecentlyHandled]
  ∧ (let first := hi_from john 86390 "2024-05-01" true in
     let second := hi_from john 86410 "2024-05-02" true in
     let r1 := handle_new_message false 3600 just_started first in
     let restarted :=
       restart false 3600 r1.1 (at_time 86400 "2024-05-02") Written in
     let r2 := handle_new_message false 3600 restarted second in
     is_relayed r1.2 = true ∧ is_relayed r2.2 = true
     ∧ (check_time (ev_obs second) - epoch (record_clock (ev_obs first)) < 3600)%Z).
Proof.
  do 4 (split; [done |]).
  split.
  { intros window self ev. rewrite handle_untracked_eq.
    split; [done | apply handle_untracked_tracking]. }
  split; [by vm_compute |]. split; [by vm_compute |].
  vm_compute. by repeat split.
Qed.

(** ** One relay per sender per day *)

Lemma run_incoming (enabled : bool) (window : Z) (self : forwarder)
  (ev : event) (rest : list step) :
  run enabled window self (Incoming ev :: rest) =
  let r := handle_new_message enabled window self ev in
  let r' := run enabled window r.1 rest in
  (r'.1, (ev, r.2) :: r'.2).
Proof.
  cbn. destruct (handle_new_message enabled window self ev) as [self1 o].
  cbn. by destruct (run enabled window self1 rest).
Qed.

Lemma run_cleanup (enabled : bool) (window : Z) (self : forwarder)
  (now : Z) (w : write_result) (rest : list step) :
  run enabled window self (Cleanup now w :: rest) =
  run enabled window (cleanup_old_tracking_data enabled window self now w) rest.
Proof. reflexivity. Qed.





(** *** Across restarts *)

Lemma track_ignored_daily_file (enabled : bool) (self : forwarder)
  (id : Z) (name reason : string) (now : clock) (w : write_result) :
  daily_messages_file (track_ignored_message enabled self id name reason now w)
  = daily_messages_file self.
Proof. by destruct enabled. Qed.

Lemma track_collected_daily_file (enabled : bool) (self : forwarder)
  (id : Z) (name : string) (now : clock) (w : write_result) :
  daily_messages_file (track_collected_message enabled self id name now w)
  = daily_messages_file self.
Proof. by destruct enabled. Qed.

(** The daily file is written on a successful relay and only then. *)
Lemma handled_daily_file (enabled : bool) (window : Z)
  (self self' : forwarder) (ev : event) (o : outcome) :
  handled enabled window self ev self' o →
  match o with
  | Relayed _ =>
      daily_messages_file self'
      = write_file (daily_write (ev_obs ev))
          (DailyDoc (Some (date_of ev)) (Some (forwarded_today self')))
          (daily_messages_file self)
  | _ => daily_messages_file self' = daily_messages_file self
  end.
Proof.
  destruct 1 as [| | | |s self1 Hs Hrecent Hfwd Hpass Hsend
                 |s self1 Hs Hrecent Hfwd Hpass Hsend];
    rewrite ?track_ignored_daily_file; try done.
  - rewrite track_collected_daily_file, track_collected_forwarded_today. cbn.
    by apply forward_message_with_info_stores in Hsend as (_ & _ & -> & _).
  - by apply forward_message_with_info_stores in Hsend as (_ & _ & -> & _).
Qed.

Section Recorded.

Variables (enabled : bool) (window : Z) (d : string) (id : Z).









End Recorded.


(** ** The daily record across midnight *)

Lemma mark_as_forwarded_lookup (self : forwarder) (user_id : Z)
  (sender_name : string) (now : clock) (w : write_result) (k : string) :
  forwarded_today (mark_as_forwarded self user_id sender_name now w) !! k =
  if decide (str user_id = k)
  then Some (DailyEntry sender_name (stamp now))
  else forwarded_today self !! k.
Proof. cbn. apply lookup_insert. Qed.

(** C2 (the code departs from it).  [mark_as_forwarded] inserts the sender
    with the current time and writes the set under today's date, but it
    never resets the set: every other entry survives whatever the stored
    date is.  On a forwarder that has run past midnight John's entry of
    1 May is still there on 2 May, is written to the file under the date of
    2 May, and makes the handler skip John's first message of 2 May as
    forwarded today. *)
Theorem mark_as_forwarded_keeps_previous_day :
  (∀ self user_id sender_name now w,
     let self' := mark_as_forwarded self user_id sender_name now w in
     forwarded_today self' !! str user_id
     = Some (DailyEntry sender_name (stamp now))
     ∧ (∀ k, k ≠ str user_id →
             forwarded_today self' !! k = forwarded_today self !! k)
     ∧ daily_messages_file self'
       = write_file w (DailyDoc (Some (today now)) (Some (forwarded_today self')))
                    (daily_messages_file self))
  ∧ (let self' := mark_as_forwarded ran_overnight 8 "Ann Lee" next_morning Written in
     daily_messages_file ran_overnight
     = Holds (DailyDoc (Some "2024-05-01") (Some {[ "7" := late_entry ]}))
     ∧ today next_morning = "2024-05-02"
     ∧ forwarded_today self' !! "7" = Some late_entry
     ∧ daily_messages_file self'
       = Holds (DailyDoc (Some "2024-05-02")
                         (Some (<["8" := DailyEntry "Ann Lee" "2024-05-02 00:01:00"]>
                                  {[ "7" := late_entry ]})))
     ∧ has_forwarded_today self' 7 = true
     ∧ (handle_new_message true 3600 self'
          (hi_from john 86500 "2024-05-02" true)).2 = SkippedForwardedToday).
Proof.
  split.
  - intros self user_id sender_name now w self'. subst self'.
    split; [| split].
    + rewrite mark_as_forwarded_lookup. by rewrite decide_True.
    + intros k Hk. rewrite mark_as_forwarded_lookup. by rewrite decide_False.
    + reflexivity.
  - by vm_compute.
Qed.

(** ** One attempt per sender within the window *)

Lemma recently_handled_enabled (window : Z) (self : forwarder) (id now : Z) :
  is_message_recently_handled true window self id now =
  active_in (ignored (message_tracking self)) (str id) (now - window)
  || active_in (collected (message_tracking self)) (str id) (now - window).
Proof.
  unfold is_message_recently_handled. cbn.
  by destruct (active_in _ _ _), (active_in _ _ _).
Qed.



Section Tracked.

Variables (t0 : Z) (id : Z).










End Tracked.



(** ** A failed delivery *)


Lemma active_in_insert_same (m : gmap string tracking_entry) (k : string)
  (e : tracking_entry) (cutoff : Z) :
  active_in (<[k := e]> m) k cutoff = bool_decide (cutoff < timestamp_of e)%Z.
Proof. unfold active_in. by rewrite lookup_insert_eq. Qed.





(** ** The exit code *)

Lemma main_returns_zero (cfg : Supervisor.settings) (shutdown : bool)
  (attempts : list Supervisor.attempt) (r : Supervisor.stop) :
  Supervisor.API_ID cfg ≠ 0%Z →
  Supervisor.API_HASH cfg ≠ "" →
  Supervisor.BOT_USERNAME cfg ≠ "" →
  Supervisor.run_with_retry attempts 0 shutdown = Some r →
  Supervisor.main cfg shutdown attempts = Some 0%Z.
Proof.
  intros Hid Hhash Hbot Hrun. unfold Supervisor.main.
  destruct (Z.eqb_spec (Supervisor.API_ID cfg) 0); [done|].
  destruct (Supervisor.API_HASH cfg); [done|].
  destruct (Supervisor.BOT_USERNAME cfg); [done|].
  cbn. by rewrite Hrun.
Qed.

Lemma main_code (cfg : Supervisor.settings) (shutdown : bool)
  (attempts : list Supervisor.attempt) (code : Z) :
  Supervisor.main cfg shutdown attempts = Some code →
  if bool_decide (Supervisor.API_ID cfg = 0%Z ∨ Supervisor.API_HASH cfg = ""
                  ∨ Supervisor.BOT_USERNAME cfg = "")
  then code = 1%Z else code = 0%Z.
Proof.
  unfold Supervisor.main.
  destruct (Z.eqb_spec (Supervisor.API_ID cfg) 0) as [Hid | Hid]; cbn.
  { intros [= <-]. rewrite bool_decide_eq_true_2; auto. }
  destruct (Supervisor.API_HASH cfg) as [|c h] eqn:Hhash; cbn.
  { intros [= <-]. rewrite bool_decide_eq_true_2; auto. }
  destruct (Supervisor.BOT_USERNAME cfg) as [|c' u] eqn:Hbot; cbn.
  { intros [= <-]. rewrite bool_decide_eq_true_2; auto. }
  rewrite bool_decide_eq_false_2 by (intros [? | [? | ?]]; done).
  destruct (Supervisor.run_with_retry attempts 0 shutdown); [| done].
  by intros [= <-].
Qed.

(** C8 (the code departs from it).  The process exits with 0 after
    [--stats], and otherwise with 1 exactly when a credential or the bot
    username is missing.  Once they are present, [main] returns 0 however
    the retry loop ends: on a clean shutdown, but also when [setup_client]
    fails and when the retry budget of five is used up. *)
Theorem exit_code_zero_on_fatal_outcomes :
  (∀ args cfg shutdown attempts code,
     Supervisor.exit_code args cfg shutdown attempts = Some code →
     (code = 0%Z ∨ code = 1%Z)
     ∧ (code = 1%Z ↔
        Supervisor.stats args = false
        ∧ (Supervisor.API_ID cfg = 0%Z ∨ Supervisor.API_HASH cfg = ""
           ∨ Supervisor.BOT_USERNAME cfg = "")))
  ∧ (∀ cfg shutdown attempts r,
       Supervisor.API_ID cfg ≠ 0%Z →
       Supervisor.API_HASH cfg ≠ "" →
       Supervisor.BOT_USERNAME cfg ≠ "" →
       Supervisor.run_with_retry attempts 0 shutdown = Some r →
       Supervisor.exit_code no_arguments cfg shutdown attempts = Some 0%Z)
  ∧ Supervisor.run_with_retry setup_fails 0 false = Some Supervisor.FailedToSetup
  ∧ Supervisor.exit_code no_arguments defaults false setup_fails = Some 0%Z
  ∧ Supervisor.run_with_retry five_failures 0 false = Some Supervisor.GaveUp
  ∧ Supervisor.exit_code no_arguments defaults false five_failures = Some 0%Z.
Proof.
  split; [| split; [| by vm_compute]].
  - intros args cfg shutdown attempts code. unfold Supervisor.exit_code.
    destruct (Supervisor.stats args).
    { intros [= <-]. split; [by left |]. split; [done | by intros [? _]]. }
    intros Hmain. apply main_code in Hmain.
    case_bool_decide as Hcred; subst code.
    + split; [by right | done].
    + split; [by left |]. split; [done | by intros [_ ?]].
  - intros cfg shutdown attempts r Hid Hhash Hbot Hrun.
    unfold Supervisor.exit_code. cbn. by eapply main_returns_zero.
Qed.

(** * Further properties of the code *)

(** ** Saving and loading again *)

(** X1.  Loading the tracking file right after a save gives back the store
    that was in memory when the write succeeded, what the file gave before
    when the file could not be opened, and the empty store when the dump
    broke off. *)
Theorem tracking_save_load_round_trip (self : forwarder) (w : write_result) :
  load_message_tracking (message_tracking_file (save_message_tracking self w)) =
  match w with
  | Written => message_tracking self
  | OpenFailed => load_message_tracking (message_tracking_file self)
  | DumpFailed => empty_tracking
  end.
Proof. by destruct w. Qed.

(** X2.  Loading the daily file after a save under date [d] gives back the
    daily record when it is read on the same date and nothing when it is
    read on another date; after a failed open it gives what the old file
    gives, and after a broken dump nothing. *)
Theorem daily_save_load_round_trip (self : forwarder) (d d' : string)
  (w : write_result) :
  load_daily_messages d' (daily_messages_file (save_daily_messages self d w)) =
  match w with
  | Written => if decide (d = d') then forwarded_today self else ∅
  | OpenFailed => load_daily_messages d' (daily_messages_file self)
  | DumpFailed => ∅
  end.
Proof.
  destruct w; try done.
  unfold load_daily_messages. cbn.
  destruct (decide (d = d')) as [-> | Hne].
  - by rewrite bool_decide_eq_true_2.
  - rewrite bool_decide_eq_false_2; [done | congruence].
Qed.

(** ** The delivery gateway *)

Lemma forward_message_with_info_success (self self1 : forwarder)
  (obs : observation) :
  forward_message_with_info self obs = (self1, true) →
  send_ok obs = true ∧ is_Some (bot_entity self1).
Proof.
  unfold forward_message_with_info.
  destruct (bot_entity self) as [b|] eqn:Hb, (resolve obs) as [b'|],
    (send_ok obs); intros [= <-]; cbn; rewrite ?Hb; by eauto.
Qed.

(** X3.  [forward_message_with_info] reports success exactly when it leaves
    a cached handle behind: every failure, of the resolution or of the
    send, ends with no handle.  It succeeds exactly when the send succeeds
    and a handle was cached or could be resolved, and it never touches the
    daily record, the tracking store or either file. *)
Theorem forward_message_with_info_handle (self : forwarder) (obs : observation) :
  let r := forward_message_with_info self obs in
  (r.2 = true ↔ is_Some (bot_entity r.1))
  ∧ (r.2 = false ↔ bot_entity r.1 = None)
  ∧ (r.2 = true ↔
     send_ok obs = true ∧ (is_Some (bot_entity self) ∨ is_Some (resolve obs)))
  ∧ (r.2 = true →
     bot_entity r.1 = match bot_entity self with
                      | Some b => Some b
                      | None => resolve obs
                      end)
  ∧ forwarded_today r.1 = forwarded_today self
  ∧ message_tracking r.1 = message_tracking self
  ∧ daily_messages_file r.1 = daily_messages_file self
  ∧ message_tracking_file r.1 = message_tracking_file self.
Proof.
  unfold forward_message_with_info.
  destruct (bot_entity self) as [b|] eqn:Hb, (resolve obs) as [b'|],
    (send_ok obs); cbn; rewrite ?Hb.
  all: repeat split; try done; try (by eexists); try (by intros [? ?]).
  all: try (by intros [_ [[? ?] | [? ?]]]); try (by intros [? _]).
  all: (left; by eexists) || (right; by eexists).
Qed.

(** X4.  Two calls of the gateway in a row: after a success the handle is
    cached, so the second call succeeds exactly when its send does; after a
    failure the handle is gone, so the second call resolves again and
    succeeds exactly when both its resolution and its send do. *)
Theorem forward_message_with_info_twice (self : forwarder)
  (obs1 obs2 : observation) :
  let r1 := forward_message_with_info self obs1 in
  let r2 := forward_message_with_info r1.1 obs2 in
  r2.2 = if r1.2 then send_ok obs2
         else bool_decide (is_Some (resolve obs2)) && send_ok obs2.
Proof.
  unfold forward_message_with_info.
  destruct (bot_entity self) as [b|] eqn:Hb, (resolve obs1) as [b1|],
    (send_ok obs1); cbn; rewrite ?Hb.
  all: by destruct (resolve obs2) as [b2|], (send_ok obs2).
Qed.

(** ** What the handler touches *)

Lemma track_ignored_other (enabled : bool) (self : forwarder) (id : Z)
  (name reason : string) (now : clock) (w : write_result) (k : string) :
  k ≠ str id →
  ignored (message_tracking
             (track_ignored_message enabled self id name reason now w)) !! k
  = ignored (message_tracking self) !! k
  ∧ collected (message_tracking
                 (track_ignored_message enabled self id name reason now w))
    = collected (message_tracking self).
Proof.
  intros Hk. destruct enabled; cbn; [| done].
  by rewrite lookup_insert_ne.
Qed.

Lemma track_collected_other (enabled : bool) (self : forwarder) (id : Z)
  (name : string) (now : clock) (w : write_result) (k : string) :
  k ≠ str id →
  collected (message_tracking
               (track_collected_message enabled self id name now w)) !! k
  = collected (message_tracking self) !! k
  ∧ ignored (message_tracking
               (track_collected_message enabled self id name now w))
    = ignored (message_tracking self).
Proof.
  intros Hk. destruct enabled; cbn; [| done].
  by rewrite lookup_insert_ne.
Qed.

Lemma handled_other_senders (enabled : bool) (window : Z)
  (self self' : forwarder) (ev : event) (o : outcome) (user_id : Z) :
  handled enabled window self ev self' o →
  from_sender user_id ev = false →
  ignored (message_tracking self') !! str user_id
  = ignored (message_tracking self) !! str user_id
  ∧ collected (message_tracking self') !! str user_id
    = collected (message_tracking self) !! str user_id
  ∧ forwarded_today self' !! str user_id = forwarded_today self !! str user_id.
Proof.
  intros Hh Hfrom.
  assert (Hkey : ∀ s, ev_sender ev = Some s → str user_id ≠ str (sender_id s)).
  { intros s Hs Heq. apply (inj str) in Heq.
    rewrite (from_sender_Some user_id ev s Hs) in Hfrom.
    by apply bool_decide_eq_false in Hfrom. }
  destruct Hh as [Hs | s Hs _ | s Hs _ _ | s Hs _ _ _
                  | s self1 Hs _ _ _ Hsend | s self1 Hs _ _ _ Hsend];
    try done.
  - destruct (track_ignored_other enabled self (sender_id s)
                (build_sender_name s) "Already forwarded today"
                (record_clock (ev_obs ev)) (tracking_write (ev_obs ev))
                _ (Hkey s Hs)) as [-> ->].
    by rewrite track_ignored_forwarded_today.
  - destruct (track_ignored_other enabled self (sender_id s)
                (build_sender_name s) "Doesn't match forwarding criteria"
                (record_clock (ev_obs ev)) (tracking_write (ev_obs ev))
                _ (Hkey s Hs)) as [-> ->].
    by rewrite track_ignored_forwarded_today.
  - apply forward_message_with_info_stores in Hsend as (Hft & Htr & _).
    destruct (track_collected_other enabled
                (mark_as_forwarded self1 (sender_id s) (build_sender_name s)
                   (record_clock (ev_obs ev)) (daily_write (ev_obs ev)))
                (sender_id s) (build_sender_name s)
                (record_clock (ev_obs ev)) (tracking_write (ev_obs ev))
                _ (Hkey s Hs)) as [-> ->].
    rewrite track_collected_forwarded_today. cbn.
    rewrite Htr, Hft, lookup_insert_ne; [done |].
    intros Heq. by apply (Hkey s Hs).
  - apply forward_message_with_info_stores in Hsend as (Hft & Htr & _).
    destruct (track_ignored_other enabled self1 (sender_id s)
                (build_sender_name s) "Forwarding failed"
                (record_clock (ev_obs ev)) (tracking_write (ev_obs ev))
                _ (Hkey s Hs)) as [-> ->].
    by rewrite track_ignored_forwarded_today, Htr, Hft.
Qed.

Lemma recently_handled_lookup (enabled : bool) (window : Z)
  (self self' : forwarder) (id now : Z) :
  ignored (message_tracking self') !! str id
  = ignored (message_tracking self) !! str id →
  collected (message_tracking self') !! str id
  = collected (message_tracking self) !! str id →
  is_message_recently_handled enabled window self' id now
  = is_message_recently_handled enabled window self id now.
Proof.
  intros Hi Hc. unfold is_message_recently_handled, active_in.
  by rewrite Hi, Hc.
Qed.

(** X5.  Handling an event leaves every other sender alone: a sender the
    event does not come from keeps its ignored entry, its collected entry
    and its entry of the daily record, so both queries answer for it as
    before. *)
Theorem handle_new_message_other_senders (enabled : bool) (window : Z)
  (self : forwarder) (ev : event) (user_id : Z) :
  from_sender user_id ev = false →
  let self' := (handle_new_message enabled window self ev).1 in
  ignored (message_tracking self') !! str user_id
  = ignored (message_tracking self) !! str user_id
  ∧ collected (message_tracking self') !! str user_id
    = collected (message_tracking self) !! str user_id
  ∧ forwarded_today self' !! str user_id = forwarded_today self !! str user_id
  ∧ has_forwarded_today self' user_id = has_forwarded_today self user_id
  ∧ (∀ now, is_message_recently_handled enabled window self' user_id now
            = is_message_recently_handled enabled window self user_id now).
Proof.
  intros Hfrom self'.
  destruct (handled_other_senders enabled window self self' ev _ user_id
              (handle_new_message_handled enabled window self ev) Hfrom)
    as (Hi & Hc & Hf).
  repeat split; try done.
  - unfold has_forwarded_today. by rewrite Hf.
  - intros now. by apply recently_handled_lookup.
Qed.

Lemma handle_new_message_other_senders_witness :
  from_sender 8 (hi_from john 0 "2024-05-01" true) = false
  ∧ has_forwarded_today
      (handle_new_message true 3600 just_started
         (hi_from john 0 "2024-05-01" true)).1 8
    = has_forwarded_today just_started 8.
Proof.
  split; [reflexivity |].
  exact (proj1 (proj2 (proj2 (proj2
           (handle_new_message_other_senders true 3600 just_started
              (hi_from john 0 "2024-05-01" true) 8 eq_refl))))).
Defined.

(** ** The daily record only grows *)



(** ** When a message is relayed *)

(** X7.  A message is relayed only from a known sender that was neither
    recently handled nor forwarded today, with a non-empty text that passes
    the filter, and only when the send succeeded.  The envelope carries the
    display name, the identifier, the time and the text of the message;
    afterwards the sender is in the daily record with that name and, when
    tracking is enabled, in the collected entries with the time of the
    recording. *)
Theorem relayed_only_when (enabled : bool) (window : Z) (self : forwarder)
  (ev : event) (e : envelope) :
  (handle_new_message enabled window self ev).2 = Relayed e →
  let self' := (handle_new_message enabled window self ev).1 in
  ∃ s,
    ev_sender ev = Some s
    ∧ e = Envelope (build_sender_name s) (sender_id s)
                   (date (ev_message ev)) (text (ev_message ev))
    ∧ nonempty (text (ev_message ev))
    ∧ should_forward_message (ev_message ev) s (build_sender_name s) = true
    ∧ is_message_recently_handled enabled window self (sender_id s)
        (check_time (ev_obs ev)) = false
    ∧ has_forwarded_today self (sender_id s) = false
    ∧ send_ok (ev_obs ev) = true
    ∧ is_Some (bot_entity self')
    ∧ forwarded_today self' !! str (sender_id s)
      = Some (DailyEntry (build_sender_name s)
                         (stamp (record_clock (ev_obs ev))))
    ∧ (enabled = true →
       collected (message_tracking self') !! str (sender_id s)
       = Some (TrackingEntry (build_sender_name s)
                             (Some (epoch (record_clock (ev_obs ev)))) None
                             (stamp (record_clock (ev_obs ev))))).
Proof.
  intros Ho self'.
  pose proof (handle_new_message_handled enabled window self ev) as Hh.
  fold self' in Hh. rewrite Ho in Hh.
  assert (Hinv : ∃ s self1,
            ev_sender ev = Some s
            ∧ e = formatted_message (ev_message ev) (build_sender_name s)
                                    (sender_id s)
            ∧ is_message_recently_handled enabled window self (sender_id s)
                (check_time (ev_obs ev)) = false
            ∧ has_forwarded_today self (sender_id s) = false
            ∧ should_forward_message (ev_message ev) s (build_sender_name s) = true
            ∧ forward_message_with_info self (ev_obs ev) = (self1, true)
            ∧ self' = track_collected_message enabled
                        (mark_as_forwarded self1 (sender_id s)
                           (build_sender_name s) (record_clock (ev_obs ev))
                           (daily_write (ev_obs ev)))
                        (sender_id s) (build_sender_name s)
                        (record_clock (ev_obs ev)) (tracking_write (ev_obs ev))).
  { inversion Hh; subst. by eexists _, _. }
  destruct Hinv as (s & self1 & Hs & -> & Hrecent & Hfwd & Hpass & Hsend & Hself').
  exists s. split; [done |]. split; [done |].
  assert (Htext : nonempty (text (ev_message ev))).
  { apply truthy_nonempty. unfold should_forward_message in Hpass.
    by destruct (Text.truthy (text (ev_message ev))). }
  destruct (forward_message_with_info_success _ _ _ Hsend) as [Hok Hcached].
  repeat split; try done.
  - rewrite Hself'. by destruct enabled.
  - rewrite Hself', track_collected_forwarded_today. cbn.
    apply lookup_insert_eq.
  - intros ->. rewrite Hself'. apply track_collected_lookup.
Qed.

Lemma relayed_only_when_witness :
  let ev := hi_from john 0 "2024-05-01" true in
  (handle_new_message true 3600 just_started ev).2 = Relayed (john_envelope 0)
  ∧ ∃ s, ev_sender ev = Some s ∧ send_ok (ev_obs ev) = true.
Proof.
  split; [reflexivity |].
  destruct (relayed_only_when true 3600 just_started
              (hi_from john 0 "2024-05-01" true) (john_envelope 0) eq_refl)
    as (s & Hs & _ & _ & _ & _ & _ & Hok & _).
  exists s. by split.
Defined.

(** ** Pruning and the recency query *)

Lemma cleaned_cleaned (c1 c2 : Z) (m : gmap string tracking_entry) :
  cleaned c2 (cleaned c1 m) = cleaned (Z.max c1 c2) m.
Proof.
  apply map_eq. intros k. apply option_eq. intros e.
  rewrite !cleaned_lookup_Some. split.
  - intros [[Hk H1] H2]. split; [done | lia].
  - intros [Hk H]. split; [split |]; (done || lia).
Qed.

(** X8.  Pruning twice is pruning once at the later of the two times: the
    second cleanup, when its write succeeds, leaves the forwarder in the
    state a single cleanup at that time would have left; so a cleanup
    repeated at the same time changes nothing. *)
Theorem cleanup_old_tracking_data_twice (enabled : bool) (window : Z)
  (self : forwarder) (t1 t2 : Z) (w1 : write_result) :
  cleanup_old_tracking_data enabled window
    (cleanup_old_tracking_data enabled window self t1 w1) t2 Written
  = cleanup_old_tracking_data enabled window self (Z.max t1 t2) Written
  ∧ cleanup_old_tracking_data enabled window
      (cleanup_old_tracking_data enabled window self t1 Written) t1 Written
    = cleanup_old_tracking_data enabled window self t1 Written.
Proof.
  assert (Hmax : ∀ a b, Z.max (a - window) (b - window) = (Z.max a b - window)%Z)
    by lia.
  destruct enabled; [| done].
  rewrite !cleanup_enabled. cbn.
  rewrite !cleaned_cleaned, !Hmax, Z.max_id. done.
Qed.

Lemma active_in_cleaned (m : gmap string tracking_entry) (k : string)
  (c1 c2 : Z) :
  (c1 ≤ c2)%Z → active_in (cleaned c1 m) k c2 = active_in m k c2.
Proof.
  intros Hle. unfold active_in.
  destruct (m !! k) as [e|] eqn:Hk.
  - destruct (decide (c1 < timestamp_of e)%Z) as [Hkeep | Hdrop].
    + by rewrite (proj2 (cleaned_lookup_Some c1 m k e) (conj Hk Hkeep)).
    + rewrite (cleaned_lookup_None c1 m k e Hk) by lia.
      symmetry. apply bool_decide_eq_false. lia.
  - destruct (cleaned c1 m !! k) as [e|] eqn:Hc; [| done].
    apply cleaned_lookup_Some in Hc as [Hc _]. congruence.
Qed.

Lemma cleanup_recently_handled (enabled : bool) (window : Z)
  (self : forwarder) (t : Z) (w : write_result) (user_id now : Z) :
  (t ≤ now)%Z →
  is_message_recently_handled enabled window
    (cleanup_old_tracking_data enabled window self t w) user_id now
  = is_message_recently_handled enabled window self user_id now.
Proof.
  intros Hle. destruct enabled; [| done].
  rewrite !recently_handled_enabled, cleanup_enabled. cbn.
  by rewrite !active_in_cleaned by lia.
Qed.

(** X9.  Pruning never changes an answer of the recency query: for every
    sender, at the time of the cleanup or later, the query answers after the
    cleanup what it answers without it.  What the cleanup removes had
    expired already. *)
Theorem cleanup_keeps_recently_handled (enabled : bool) (window : Z)
  (self : forwarder) (t : Z) (w : write_result) (user_id now : Z) :
  (t ≤ now)%Z →
  is_message_recently_handled enabled window
    (cleanup_old_tracking_data enabled window self t w) user_id now
  = is_message_recently_handled enabled window self user_id now.
Proof. apply cleanup_recently_handled. Qed.

Lemma cleanup_keeps_recently_handled_witness :
  (0 ≤ 1800)%Z
  ∧ is_message_recently_handled true 3600
      (cleanup_old_tracking_data true 3600 just_started 0 Written) 7 1800
    = is_message_recently_handled true 3600 just_started 7 1800.
Proof.
  split; [lia |].
  apply (cleanup_keeps_recently_handled true 3600 just_started 0 Written 7 1800).
  lia.
Defined.

(** ** Statistics *)

Lemma count_recent_insert (c : Z) (m : gmap string tracking_entry)
  (k : string) (e : tracking_entry) :
  m !! k = None →
  count_recent c (<[k := e]> m)
  = ((if decide (c < timestamp_of e)%Z then 1 else 0) + count_recent c m)%nat.
Proof.
  intros Hk. unfold count_recent.
  rewrite (map_to_list_insert m k e Hk). cbn.
  by destruct (decide (c < timestamp_of e)%Z).
Qed.

Lemma count_recent_size (c : Z) (m : gmap string tracking_entry) :
  count_recent c m = size (cleaned c m).
Proof.
  induction m as [|k e m Hk _ IH] using map_first_key_ind.
  - unfold count_recent, cleaned.
    by rewrite map_to_list_empty, map_filter_empty, map_size_empty.
  - rewrite count_recent_insert by done. unfold cleaned in *.
    destruct (decide (c < timestamp_of e)%Z) as [Hkeep | Hdrop].
    + rewrite map_filter_insert_True by done.
      rewrite map_size_insert_None, IH; [done |].
      apply map_lookup_filter_None. by left.
    + rewrite map_filter_insert_False, delete_id by done. by rewrite IH.
Qed.

Lemma active_in_count (m : gmap string tracking_entry) (k : string) (c : Z) :
  active_in m k c = true → (1 ≤ count_recent c m)%nat.
Proof.
  unfold active_in. destruct (m !! k) as [e|] eqn:Hk; [| done].
  intros Hact. apply bool_decide_eq_true in Hact.
  rewrite count_recent_size.
  assert (Hsome : cleaned c m !! k = Some e) by by apply cleaned_lookup_Some.
  destruct (decide (size (cleaned c m) = 0%nat)) as [Hz | ?]; [| lia].
  apply map_size_empty_inv in Hz. by rewrite Hz in Hsome.
Qed.

(** X10.  With tracking enabled [get_tracking_stats] reports, for each
    category, the number of entries younger than the window and the number
    of all entries: the recent count is the size of what a cleanup at that
    time would keep, so it never exceeds the total, and right after such a
    cleanup the two are equal.  If the recency query answers true for some
    sender at that time, at least one recent entry is counted. *)
Theorem get_tracking_stats_counts (window : Z) (self : forwarder) (now : clock) :
  ∃ ri rc,
    get_tracking_stats true window self now
    = Stats window (QArith_base.Qmake window 3600) ri rc
            (size (ignored (message_tracking self)))
            (size (collected (message_tracking self))) (stamp now)
    ∧ ri = size (cleaned (epoch now - window) (ignored (message_tracking self)))
    ∧ rc = size (cleaned (epoch now - window) (collected (message_tracking self)))
    ∧ (ri ≤ size (ignored (message_tracking self)))%nat
    ∧ (rc ≤ size (collected (message_tracking self)))%nat
    ∧ (∀ user_id,
         is_message_recently_handled true window self user_id (epoch now) = true →
         (1 ≤ ri + rc)%nat)
    ∧ (∀ w,
         get_tracking_stats true window
           (cleanup_old_tracking_data true window self (epoch now) w) now
         = Stats window (QArith_base.Qmake window 3600) ri rc ri rc (stamp now)).
Proof.
  eexists _, _. split; [reflexivity |].
  split; [apply count_recent_size |]. split; [apply count_recent_size |].
  split; [| split; [| split]].
  - rewrite count_recent_size. apply map_subseteq_size, map_filter_subseteq.
  - rewrite count_recent_size. apply map_subseteq_size, map_filter_subseteq.
  - intros user_id. rewrite recently_handled_enabled.
    intros [Hact | Hact]%orb_true_iff; apply active_in_count in Hact; lia.
  - intros w. rewrite cleanup_enabled. unfold get_tracking_stats. cbn.
    rewrite !count_recent_size, !cleaned_cleaned, Z.max_id. done.
Qed.

(** ** Construction *)

(** X11.  A forwarder constructed with tracking enabled starts with the
    loaded tracking store pruned: each category is a part of what the file
    gave and holds no entry as old as the window.  The daily record is what
    [load_daily_messages] gives for the day, no handle is cached, the daily
    file is left alone and the pruned store is written to the tracking
    file.  With tracking disabled the loaded store is kept as it is and
    nothing is written. *)
Theorem init_prunes_what_it_loads (window : Z) (daily : file daily_doc)
  (tracked : file tracking) (now : clock) (w : write_result) :
  let self := init true window daily tracked now w in
  let loaded := load_message_tracking tracked in
  (∀ category : tracking → gmap string tracking_entry,
     category = ignored ∨ category = collected →
     category (message_tracking self) ⊆ category loaded
     ∧ (∀ k e, category (message_tracking self) !! k = Some e →
               (epoch now - timestamp_of e < window)%Z))
  ∧ forwarded_today self = load_daily_messages (today now) daily
  ∧ bot_entity self = None
  ∧ daily_messages_file self = daily
  ∧ message_tracking_file self = write_file w (message_tracking self) tracked
  ∧ init false window daily tracked now w
    = Forwarder None (load_daily_messages (today now) daily) loaded daily tracked.
Proof.
  intros self loaded. subst self loaded. unfold init.
  rewrite cleanup_enabled. cbn. split; [| done].
  intros category [-> | ->]; cbn.
  all: split; [apply map_filter_subseteq |].
  all: intros k e [_ Hlt]%cleaned_lookup_Some; lia.
Qed.

(** ** Memory and disk *)

Lemma track_ignored_synced (enabled : bool) (self : forwarder) (id : Z)
  (name reason : string) (now : clock) :
  tracking_synced self →
  tracking_synced (track_ignored_message enabled self id name reason now Written).
Proof. by destruct enabled. Qed.

Lemma track_collected_synced (enabled : bool) (self : forwarder) (id : Z)
  (name : string) (now : clock) :
  tracking_synced self →
  tracking_synced (track_collected_message enabled self id name now Written).
Proof. by destruct enabled. Qed.

Lemma handle_synced (enabled : bool) (window : Z) (self : forwarder)
  (ev : event) :
  all_written (Incoming ev) →
  let r := handle_new_message enabled window self ev in
  (tracking_synced self → tracking_synced r.1)
  ∧ (∀ d, daily_synced d self →
          daily_synced (if is_relayed r.2 then date_of ev else d) r.1)
  ∧ (is_relayed r.2 = true → daily_synced (date_of ev) r.1).
Proof.
  intros [Hd Ht] r. subst r.
  pose proof (handle_new_message_handled enabled window self ev) as Hh.
  pose proof (handled_daily_record _ _ _ _ _ _ Hh) as Hrec.
  pose proof (handled_daily_file _ _ _ _ _ _ Hh) as Hfile.
  split; [| split].
  - intros Hsync.
    destruct Hh as [Hs | s Hs _ | s Hs _ _ | s Hs _ _ _
                    | s self1 Hs _ _ _ Hsend | s self1 Hs _ _ _ Hsend];
      try done; rewrite Ht.
    + by apply track_ignored_synced.
    + by apply track_ignored_synced.
    + apply forward_message_with_info_stores in Hsend as (_ & Htr & _ & Hf).
      apply track_collected_synced. unfold tracking_synced in *. cbn.
      by rewrite Htr, Hf.
    + apply forward_message_with_info_stores in Hsend as (_ & Htr & _ & Hf).
      apply track_ignored_synced. unfold tracking_synced in *.
      by rewrite Htr, Hf.
  - intros d Hsync. unfold daily_synced in *.
    destruct (handle_new_message enabled window self ev).2; cbn;
      try (by rewrite Hfile, Hrec).
    by rewrite Hfile, Hd.
  - unfold daily_synced.
    destruct (handle_new_message enabled window self ev).2; try done.
    intros _. by rewrite Hfile, Hd.
Qed.

Lemma cleanup_synced (enabled : bool) (window : Z) (self : forwarder)
  (now : Z) :
  (tracking_synced self →
   tracking_synced (cleanup_old_tracking_data enabled window self now Written))
  ∧ (∀ d, daily_synced d self →
          daily_synced d (cleanup_old_tracking_data enabled window self now Written)).
Proof. by destruct enabled. Qed.

(** X12.  While every file write succeeds, the files follow the memory
    through any run: if the tracking file holds the tracking store it still
    does afterwards, if the daily file holds the daily record it still does
    afterwards (under the date of the last relay), and after a run with at
    least one relay the daily file holds the daily record whatever it held
    before. *)
Theorem files_follow_memory (enabled : bool) (window : Z)
  (steps : list step) (self : forwarder) :
  Forall all_written steps →
  let r := run enabled window self steps in
  (tracking_synced self → tracking_synced r.1)
  ∧ (∀ d, daily_synced d self → ∃ d', daily_synced d' r.1)
  ∧ (relays r.2 ≠ 0%nat → ∃ d', daily_synced d' r.1).
Proof.
  revert self. induction steps as [|[ev|now w] rest IH]; intros self Hw.
  - cbn. split; [done |]. split; [by eexists | done].
  - apply Forall_cons in Hw as [Hev Hw].
    destruct (handle_synced enabled window self ev Hev) as (Ht & Hd & Hrel).
    destruct (IH (handle_new_message enabled window self ev).1 Hw)
      as (Ht' & Hd' & Hrel').
    rewrite run_incoming. cbn in *. split; [auto |]. split.
    + intros d Hs. eapply Hd', Hd, Hs.
    + unfold relays. cbn.
      destruct (is_relayed (handle_new_message enabled window self ev).2)
        eqn:Ho; cbn.
      * intros _. eapply Hd', Hrel. done.
      * apply Hrel'.
  - apply Forall_cons in Hw as [Hev Hw]. cbn in Hev. subst w.
    destruct (cleanup_synced enabled window self now) as [Ht Hd].
    destruct (IH (cleanup_old_tracking_data enabled window self now Written) Hw)
      as (Ht' & Hd' & Hrel').
    rewrite run_cleanup. cbn in *. split; [auto |]. split; [| done].
    intros d Hs. eapply Hd', Hd, Hs.
Qed.

Lemma files_follow_memory_witness :
  Forall all_written fail_then_retry
  ∧ ∃ d', daily_synced d' (run false 3600 just_started fail_then_retry).1.
Proof.
  assert (H : Forall all_written fail_then_retry) by (repeat constructor).
  split; [exact H |].
  apply (proj2 (proj2
           (files_follow_memory false 3600 fail_then_retry just_started H))).
  vm_compute. discriminate.
Defined.

(** ** Restarting *)

Lemma init_forwarded_today (enabled : bool) (window : Z)
  (daily : file daily_doc) (tracked : file tracking) (now : clock)
  (w : write_result) :
  forwarded_today (init enabled window daily tracked now w)
  = load_daily_messages (today now) daily.
Proof. unfold init. by rewrite cleanup_forwarded_today. Qed.

(** X13.  A restart over files that hold the memory loses no decision: the
    new forwarder has the old daily record when it starts on the date the
    daily file was written and an empty one on any other date, and for
    every sender the recency query answers, from the time of the restart
    on, what it answered before.  The cached handle is gone. *)
Theorem restart_keeps_decisions (enabled : bool) (window : Z)
  (self : forwarder) (now : clock) (w : write_result) (d : string) :
  tracking_synced self → daily_synced d self →
  let self' := restart enabled window self now w in
  forwarded_today self'
  = (if decide (d = today now) then forwarded_today self else ∅)
  ∧ (∀ user_id,
       has_forwarded_today self' user_id
       = if decide (d = today now) then has_forwarded_today self user_id
         else false)
  ∧ (∀ user_id t, (epoch now ≤ t)%Z →
       is_message_recently_handled enabled window self' user_id t
       = is_message_recently_handled enabled window self user_id t)
  ∧ bot_entity self' = None.
Proof.
  intros Ht Hd self'. subst self'. unfold restart.
  unfold tracking_synced in Ht. unfold daily_synced in Hd. rewrite Ht, Hd.
  assert (Hload : load_daily_messages (today now)
                    (Holds (DailyDoc (Some d) (Some (forwarded_today self))))
                  = (if decide (d = today now) then forwarded_today self else ∅)).
  { unfold load_daily_messages. cbn.
    destruct (decide (d = today now)) as [-> | Hne].
    - by rewrite bool_decide_eq_true_2.
    - rewrite bool_decide_eq_false_2; [done | congruence]. }
  split; [| split; [| split]].
  - by rewrite init_forwarded_today, Hload.
  - intros user_id. unfold has_forwarded_today.
    rewrite init_forwarded_today, Hload.
    destruct (decide (d = today now)); [done |].
    apply bool_decide_eq_false. rewrite lookup_empty. by intros [? ?].
  - intros user_id t Hle. unfold init.
    rewrite cleanup_recently_handled by done.
    by apply recently_handled_lookup.
  - unfold init. by destruct enabled.
Qed.

Lemma restart_keeps_decisions_witness :
  let self := (handle_new_message true 3600 just_started
                 (hi_from john 0 "2024-05-01" true)).1 in
  tracking_synced self ∧ daily_synced "2024-05-01" self
  ∧ has_forwarded_today
      (restart true 3600 self (at_time 60 "2024-05-01") Written) 7 = true.
Proof.
  intros self.
  assert (Ht : tracking_synced self) by (vm_compute; reflexivity).
  assert (Hd : daily_synced "2024-05-01" self) by (vm_compute; reflexivity).
  split; [exact Ht |]. split; [exact Hd |].
  rewrite (proj1 (proj2
             (restart_keeps_decisions true 3600 self (at_time 60 "2024-05-01")
                Written "2024-05-01" Ht Hd))).
  vm_compute. reflexivity.
Defined.

(** ** Handles with digits *)

Lemma append_assoc (a b c : string) : (a +:+ b) +:+ c = a +:+ b +:+ c.
Proof.
  induction a as [|x a IH]; [done |].
  change (String x ((a +:+ b) +:+ c) = String x (a +:+ b +:+ c)).
  by f_equal.
Qed.

Lemma append_empty_r (a : string) : a +:+ "" = a.
Proof.
  induction a as [|x a IH]; [done |].
  change (String x (a +:+ "") = String x a). by f_equal.
Qed.

Lemma has_digit_run_inside (a s b : string) :
  Text.has_digit_run s → Text.has_digit_run (a +:+ s +:+ b).
Proof.
  intros (pre & run & post & -> & Hlen & Hrun).
  exists (a +:+ pre), run, (post +:+ b).
  split; [| done]. by rewrite !append_assoc.
Qed.

Lemma build_sender_name_username (s : sender) (u : string) :
  username s = Some u → u ≠ "" →
  ∃ a b, build_sender_name s = a +:+ u +:+ b.
Proof.
  intros Hu Hne. unfold build_sender_name. rewrite Hu.
  destruct u as [|c u]; [done |]. cbn.
  destruct (_ ++ _)%list as [|p ps].
  - exists "@", "". by rewrite append_empty_r.
  - exists (Text.join " " (p :: ps) +:+ " (@"), ")".
    rewrite !append_assoc. reflexivity.
Qed.

(** X14.  A sender whose handle contains a run of three or four digits
    passes the filter with any non-empty text, whatever its first and last
    name are: the display name always contains the handle. *)
Theorem digits_in_username_pass (m : message) (s : sender) (u : string) :
  nonempty (text m) → username s = Some u → Text.has_digit_run u →
  Text.has_digit_run (build_sender_name s)
  ∧ should_forward_message m s (build_sender_name s) = true.
Proof.
  intros Htext Hu Hrun.
  assert (Hne : u ≠ "").
  { destruct Hrun as (pre & run & post & -> & Hlen & _).
    destruct pre; [| done]. destruct run; [| done]. cbn in Hlen. lia. }
  destruct (build_sender_name_username s u Hu Hne) as (a & b & Hname).
  assert (Hhas : Text.has_digit_run (build_sender_name s)).
  { rewrite Hname. by apply has_digit_run_inside. }
  split; [done |].
  unfold should_forward_message.
  rewrite (proj2 (truthy_nonempty (text m)) Htext). cbn.
  apply orb_true_iff. left. apply bool_decide_eq_true.
  by apply TextFacts.re_search_d34_spec.
Qed.

Lemma digits_in_username_pass_witness :
  nonempty (text hi) ∧ username driver22345 = Some "driver22345"
  ∧ Text.has_digit_run "driver22345"
  ∧ should_forward_message hi driver22345 (build_sender_name driver22345) = true.
Proof.
  assert (Htext : nonempty (text hi)) by (by exists "hi").
  assert (Hrun : Text.has_digit_run "driver22345").
  { apply TextFacts.re_search_d34_spec. vm_compute. by eexists. }
  split; [exact Htext |]. split; [reflexivity |]. split; [exact Hrun |].
  exact (proj2 (digits_in_username_pass hi driver22345 "driver22345"
                  Htext eq_refl Hrun)).
Defined.

(** ** The retry loop *)

Module SupervisorFacts.
Import Supervisor.

Lemma run_with_retry_cons (a : attempt) (rest : list attempt)
  (retry_count : nat) (shutdown : bool) :
  run_with_retry (a :: rest) retry_count shutdown =
  if negb ((retry_count <? max_retries)%nat && negb shutdown)
  then Some LoopConditionFalse
  else
    let shutdown' := shutdown || signal_during_body a in
    match body a with
    | SetupReturnedFalse => Some FailedToSetup
    | WaitReturned =>
        if shutdown' then Some ShutdownRequested
        else run_with_retry rest 0%nat shutdown'
    | KeyboardInterruptRaised => Some Interrupted
    | ExceptionBeforeReset =>
        after_exception (S retry_count) shutdown' a (run_with_retry rest)
    | ExceptionAfterReset =>
        after_exception 1%nat shutdown' a (run_with_retry rest)
    end.
Proof. reflexivity. Qed.

Lemma run_with_retry_nil (retry_count : nat) (shutdown : bool) :
  run_with_retry [] retry_count shutdown =
  if negb ((retry_count <? max_retries)%nat && negb shutdown)
  then Some LoopConditionFalse else None.
Proof. reflexivity. Qed.

Lemma entered (retry_count : nat) :
  (retry_count < max_retries)%nat →
  negb ((retry_count <? max_retries)%nat && negb false) = false.
Proof. intros Hlt. by rewrite (proj2 (Nat.ltb_lt _ _) Hlt). Qed.

(** X15.  A shutdown signal ends the loop at once.  With the flag set on
    entry no iteration is started; when the signal arrives while the body
    of an iteration runs, or during the delay after an exception, the loop
    returns in that iteration, whatever the iterations after it would have
    been. *)
Theorem shutdown_ends_the_loop (a : attempt) (rest : list attempt)
  (retry_count : nat) (shutdown : bool) :
  shutdown = true
  ∨ signal_during_body a = true
  ∨ (signal_during_delay a = true
     ∧ (body a = ExceptionBeforeReset ∨ body a = ExceptionAfterReset)) →
  (shutdown = true →
   run_with_retry (a :: rest) retry_count shutdown = Some LoopConditionFalse)
  ∧ ∃ r, run_with_retry (a :: rest) retry_count shutdown = Some r
         ∧ run_with_retry [a] retry_count shutdown = Some r.
Proof.
  intros Hsig. rewrite !run_with_retry_cons. split.
  { intros ->. by rewrite andb_false_r. }
  destruct ((retry_count <? max_retries)%nat && negb shutdown) eqn:Hentry;
    cbn; [| by eexists].
  apply andb_true_iff in Hentry as [_ Hsd]. apply negb_true_iff in Hsd.
  subst shutdown. cbn. unfold after_exception.
  destruct Hsig as [? | [Hbody | [Hdelay Hexc]]]; [done | |].
  - rewrite Hbody.
    destruct (body a); cbn; rewrite ?andb_false_r; by eexists.
  - rewrite Hdelay.
    destruct Hexc as [-> | ->]; destruct (_ && _); by eexists.
Qed.

Lemma shutdown_ends_the_loop_witness :
  signal_during_body (Attempt WaitReturned true false) = true
  ∧ ∃ r,
      run_with_retry [Attempt WaitReturned true false; undisturbed WaitReturned]
        0 false = Some r
      ∧ run_with_retry [Attempt WaitReturned true false] 0 false = Some r.
Proof.
  split; [reflexivity |].
  exact (proj2 (shutdown_ends_the_loop (Attempt WaitReturned true false)
                  [undisturbed WaitReturned] 0 false
                  (or_intror (or_introl eq_refl)))).
Defined.

(** X16.  The retry budget.  Exceptions raised before the counter is reset
    use it up: from a counter below five, [n] such iterations in a row end
    in giving up exactly when they bring the counter to five, and the loop
    is still running otherwise.  An iteration that gets past the setup
    resets the counter, so after it the full budget of five is available
    again; and as long as every iteration gets past the setup, whether it
    then waits or raises, the loop never gives up. *)
Theorem retry_budget (retry_count : nat) :
  (retry_count < max_retries)%nat →
  (∀ n,
     run_with_retry (replicate n (undisturbed ExceptionBeforeReset))
                    retry_count false
     = if decide (max_retries - retry_count ≤ n)%nat then Some GaveUp else None)
  ∧ (∀ n,
       run_with_retry
         (undisturbed WaitReturned
            :: replicate n (undisturbed ExceptionBeforeReset))
         retry_count false
       = if decide (max_retries ≤ n)%nat then Some GaveUp else None)
  ∧ (∀ attempts,
       Forall (λ a, a = undisturbed WaitReturned
                    ∨ a = undisturbed ExceptionAfterReset) attempts →
       run_with_retry attempts retry_count false = None).
Proof.
  intros Hrc.
  assert (Hbefore : ∀ n rc, (rc < max_retries)%nat →
            run_with_retry (replicate n (undisturbed ExceptionBeforeReset)) rc false
            = if decide (max_retries - rc ≤ n)%nat then Some GaveUp else None).
  { induction n as [|n IH]; intros rc Hlt.
    - cbn [replicate]. rewrite run_with_retry_nil, (entered rc Hlt).
      rewrite decide_False; [done | lia].
    - cbn [replicate]. rewrite run_with_retry_cons, (entered rc Hlt).
      unfold after_exception, undisturbed.
      cbn [body signal_during_body signal_during_delay orb negb].
      destruct (Nat.ltb_spec (S rc) max_retries) as [Hlt' | Hge];
        cbn [andb negb].
      + rewrite IH by done. repeat case_decide; (done || lia).
      + rewrite decide_True; [done | lia]. }
  split; [intros n; by apply Hbefore |]. split.
  - intros n. rewrite run_with_retry_cons, (entered _ Hrc).
    unfold undisturbed at 1.
    cbn [body signal_during_body signal_during_delay orb negb].
    rewrite Hbefore by (unfold max_retries; lia).
    repeat case_decide; (done || lia).
  - intros attempts Hall. revert retry_count Hrc.
    induction Hall as [|a attempts Ha _ IH]; intros rc Hlt.
    + by rewrite run_with_retry_nil, (entered rc Hlt).
    + rewrite run_with_retry_cons, (entered rc Hlt).
      destruct Ha as [-> | ->]; unfold after_exception, undisturbed;
        cbn [body signal_during_body signal_during_delay orb negb].
      * apply IH. unfold max_retries. lia.
      * change (1 <? max_retries)%nat with true. cbn [andb negb].
        apply IH. unfold max_retries. lia.
Qed.

Lemma retry_budget_witness :
  (0 < max_retries)%nat
  ∧ run_with_retry (replicate 4 (undisturbed ExceptionBeforeReset)) 0 false = None
  ∧ run_with_retry (replicate 5 (undisturbed ExceptionBeforeReset)) 0 false
    = Some GaveUp.
Proof.
  assert (H : (0 < max_retries)%nat) by (unfold max_retries; lia).
  split; [exact H |].
  split; [exact (proj1 (retry_budget 0 H) 4) | exact (proj1 (retry_budget 0 H) 5)].
Defined.



End SupervisorFacts.

(** ** Recording and asking *)

(** X18.  What is recorded is recently handled for exactly the window.
    After [track_ignored_message] or [track_collected_message] has run for
    a sender with tracking enabled, the recency query for that sender is
    true at every time less than the window after the recording; from the
    window on it is true only if the entry of the other category is still
    active. *)
Theorem recorded_is_recent_for_the_window (window : Z) (self : forwarder)
  (user_id : Z) (name reason : string) (now : clock) (w : write_result)
  (t : Z) :
  is_message_recently_handled true window
    (track_ignored_message true self user_id name reason now w) user_id t
  = bool_decide (t - epoch now < window)%Z
    || active_in (collected (message_tracking self)) (str user_id) (t - window)
  ∧ is_message_recently_handled true window
      (track_collected_message true self user_id name now w) user_id t
    = bool_decide (t - epoch now < window)%Z
      || active_in (ignored (message_tracking self)) (str user_id) (t - window).
Proof.
  assert (Hage : bool_decide (t - window < epoch now)%Z
                 = bool_decide (t - epoch now < window)%Z).
  { apply bool_decide_ext. lia. }
  rewrite !recently_handled_enabled. cbn.
  rewrite !active_in_insert_same. cbn. rewrite Hage.
  split; [done | apply orb_comm].
Qed.
